(** * QKart cart service: a shallow embedding of [src/services/cart.service.js]

    The service reads and writes three MongoDB collections through
    Mongoose models ([Cart], [Product], and the [user] document handed
    in by the caller).  The collections are modelled as one store value
    threaded through every call; an exception leaves the store as it
    was at the point of the [throw].

    JavaScript numbers ([cost], [quantity], [walletMoney]) are IEEE 754
    binary64 values: they are modelled as the primitive [float]s, with
    [+], [-], [*] and [<] as the binary64 operations (every result
    rounded to nearest, ties to even; NaN and the infinities included).
    The service puts no condition on the quantity it receives. *)

From Stdlib Require Import ZArith QArith List String Lia Floats.
From stdpp Require Import gmap strings list fin_maps.

Local Open Scope string_scope.
Local Open Scope list_scope.
Local Open Scope float_scope.

(** ** Documents *)

(** A Mongo [ObjectId]; [toString] gives its hexadecimal rendering. *)
Record ObjectId := { hex : string }.

Definition toString (o : ObjectId) : string := hex o.

Record Product := { _id : ObjectId; cost : float }.

Record CartItem := { product : Product; quantity : float }.

Module Cart.
Record t := { email : string; cartItems : list CartItem }.
End Cart.

Module User.
Record t := { email : string; walletMoney : float; address : string }.
End User.

(** ** The store *)

(** [carts] is the cart collection keyed by the owner's email,
    [products] the catalog, [users] the user collection keyed by email.
    [cartCreateOk] says whether the store accepts the creation of a new
    cart document. *)
Record Db := {
  carts : gmap string (list CartItem);
  products : list Product;
  users : gmap string User.t;
  cartCreateOk : bool
}.

Definition set_carts (f : gmap string (list CartItem) -> gmap string (list CartItem))
    (db : Db) : Db :=
  {| carts := f (carts db); products := products db;
     users := users db; cartCreateOk := cartCreateOk db |}.

Definition set_users (f : gmap string User.t -> gmap string User.t) (db : Db) : Db :=
  {| carts := carts db; products := products db;
     users := f (users db); cartCreateOk := cartCreateOk db |}.

(** ** Errors and the service monad *)

Definition NOT_FOUND : nat := 404.
Definition BAD_REQUEST : nat := 400.
Definition INTERNAL_SERVER_ERROR : nat := 500.

(** [ApiError] carries a status code and a message (absent when the
    constructor is called with the status alone); [TypeError] is what
    [Array.prototype.reduce] raises on an empty array without an
    initial value. *)
Inductive Error :=
| ApiError (statusCode : nat) (message : option string)
| TypeError.

Definition M (A : Type) : Type := Db -> (Error + A) * Db.

Definition ret {A} (a : A) : M A := fun db => (inr a, db).

Definition throw {A} (e : Error) : M A := fun db => (inl e, db).

Definition bind {A B} (c : M A) (k : A -> M B) : M B :=
  fun db =>
    match c db with
    | (inl e, db') => (inl e, db')
    | (inr a, db') => k a db'
    end.

Declare Scope svc_scope.
Delimit Scope svc_scope with svc.
Notation "x <~ c ;; k" := (bind c (fun x => k))
  (at level 100, c at next level, right associativity) : svc_scope.

(** ** The models *)

(** Modelled from the spec: [Cart.findOne({email})] of the Cart model,
    which is not part of the source.  The cart collection is "keyed by
    user email (unique)" and the lookup has no side effect. *)
Definition Cart_findOne (e : string) : M (option Cart.t) :=
  fun db => (inr (Cart.Build_t e <$> carts db !! e), db).

(** Modelled from the spec: [Cart.create] of the Cart model, which is
    not part of the source.  "If no cart exists for the user, create an
    empty one; creation failure is fatal": the new document has no line
    item and is persisted; a refused creation yields no document. *)
Definition Cart_create (e : string) : M (option Cart.t) :=
  fun db =>
    if cartCreateOk db
    then (inr (Some {| Cart.email := e; Cart.cartItems := [] |}),
          set_carts (insert e []) db)
    else (inr None, db).

(** Modelled from the spec: [cartObj.save()] of the Cart model, a
    "whole-document save": the document replaces the stored one and is
    returned. *)
Definition Cart_save (c : Cart.t) : M Cart.t :=
  fun db => (inr c, set_carts (insert (Cart.email c) (Cart.cartItems c)) db).

Definition findProduct (coll : list Product) (productId : string) : option Product :=
  List.find (fun p => String.eqb (toString (_id p)) productId) coll.

(** Modelled from the spec: [Product.findById] of the Product model,
    which is not part of the source.  "ProductCatalog.findById(id) ->
    Product | absent -- read-only lookup", keyed by product
    identifier. *)
Definition Product_findById (productId : string) : M (option Product) :=
  fun db => (inr (findProduct (products db) productId), db).

(** Modelled from the spec: [user.save()] of the User model, which is
    not part of the source; it persists the user record. *)
Definition User_save (u : User.t) : M User.t :=
  fun db => (inr u, set_users (insert (User.email u) u) db).

(** ** The service *)

(** The scan stops at the first line item whose product id, as a
    string, is [productId]. *)
Fixpoint checkProductInCart (cartItems : list CartItem) (productId : string) : bool :=
  match cartItems with
  | [] => false
  | item :: rest =>
      if String.eqb (toString (_id (product item))) productId
      then true
      else checkProductInCart rest productId
  end.

Definition getCartByUser (user : User.t) : M Cart.t :=
  (cartObj <~ Cart_findOne (User.email user) ;;
   match cartObj with
   | None => throw (ApiError NOT_FOUND (Some "User does not have a cart"))
   | Some c => ret c
   end)%svc.

Definition addProductToCart (user : User.t) (productId : string) (quantity : float)
    : M Cart.t :=
  (found <~ Cart_findOne (User.email user) ;;
   cartObj <~ match found with
              | Some c => ret c
              | None =>
                  created <~ Cart_create (User.email user) ;;
                  match created with
                  | None => throw (ApiError INTERNAL_SERVER_ERROR None)
                  | Some c => ret c
                  end
              end ;;
   let cartItems := Cart.cartItems cartObj in
   let isProductInCart := checkProductInCart cartItems productId in
   if isProductInCart
   then throw (ApiError BAD_REQUEST
          (Some "Product already in cart. Use the cart sidebar to update or remove product from cart"))
   else
     prodObj <~ Product_findById productId ;;
     match prodObj with
     | None => throw (ApiError BAD_REQUEST (Some "Product doesn't exist in database"))
     | Some p =>
         Cart_save {| Cart.email := Cart.email cartObj;
                      Cart.cartItems :=
                        cartItems ++ [ {| product := p; quantity := quantity |} ] |}
     end)%svc.

(** The update loop: the first line whose id matches gets the new
    quantity, then [break]. *)
Fixpoint updateQuantity (cartItems : list CartItem) (productId : string) (q : float)
    : list CartItem :=
  match cartItems with
  | [] => []
  | item :: rest =>
      if String.eqb (toString (_id (product item))) productId
      then {| product := product item; quantity := q |} :: rest
      else item :: updateQuantity rest productId q
  end.

Definition updateProductInCart (user : User.t) (productId : string) (quantity : float)
    : M Cart.t :=
  (found <~ Cart_findOne (User.email user) ;;
   match found with
   | None => throw (ApiError BAD_REQUEST
               (Some "User does not have a cart. Use POST to create cart and add a product"))
   | Some cartObj =>
       prodObj <~ Product_findById productId ;;
       match prodObj with
       | None => throw (ApiError BAD_REQUEST (Some "Product doesn't exist in database"))
       | Some _ =>
           let cartItems := Cart.cartItems cartObj in
           let isProductInCart := checkProductInCart cartItems productId in
           if negb isProductInCart
           then throw (ApiError BAD_REQUEST (Some "Product not in cart"))
           else
             Cart_save {| Cart.email := Cart.email cartObj;
                          Cart.cartItems := updateQuantity cartItems productId quantity |}
       end
   end)%svc.

Definition deleteProductFromCart (user : User.t) (productId : string) : M Cart.t :=
  (found <~ Cart_findOne (User.email user) ;;
   match found with
   | None => throw (ApiError BAD_REQUEST (Some "User does not have a cart"))
   | Some cartObj =>
       let cartItems := Cart.cartItems cartObj in
       let isProductInCart := checkProductInCart cartItems productId in
       if negb isProductInCart
       then throw (ApiError BAD_REQUEST (Some "Product not in cart"))
       else
         let updatedCartItems :=
           List.filter
             (fun item => negb (String.eqb (toString (_id (product item))) productId))
             cartItems in
         Cart_save {| Cart.email := Cart.email cartObj;
                      Cart.cartItems := updatedCartItems |}
   end)%svc.

(** [Array.prototype.reduce] without an initial value: the first
    element seeds the accumulator, and the empty array is an error. *)
Definition reduce {A} (f : A -> A -> A) (l : list A) : option A :=
  match l with
  | [] => None
  | x :: xs => Some (List.fold_left f xs x)
  end.

Definition lineCost (item : CartItem) : float := cost (product item) * quantity item.

Section Checkout.

(** [user.hasSetNonDefaultAddress()], a method of the User model,
    which is not part of the source. *)
Variable hasSetNonDefaultAddress : User.t -> bool.

(** [checkout] assigns to the caller's [user] object, so the result
    is the outcome, the user object as the call leaves it, and the
    store. *)
Definition checkout (user : User.t) (db : Db) : (Error + unit) * User.t * Db :=
  match getCartByUser user db with
  | (inl e, db1) => (inl e, user, db1)
  | (inr cartObj, db1) =>
      if Nat.eqb (length (Cart.cartItems cartObj)) 0
      then (inl (ApiError BAD_REQUEST (Some "No products in cart")), user, db1)
      else
        let cartItems := Cart.cartItems cartObj in
        match reduce PrimFloat.add
                (List.map (fun item => cost (product item) * quantity item) cartItems) with
        | None => (inl TypeError, user, db1)
        | Some total =>
            if User.walletMoney user <? total
            then (inl (ApiError BAD_REQUEST (Some "Insufficient Balance")), user, db1)
            else
              let isNonDefaultAddress := hasSetNonDefaultAddress user in
              if negb isNonDefaultAddress
              then (inl (ApiError BAD_REQUEST (Some "No address set")), user, db1)
              else
                let cartObj' := {| Cart.email := Cart.email cartObj;
                                   Cart.cartItems := [] |} in
                let user' := {| User.email := User.email user;
                                User.walletMoney := User.walletMoney user - total;
                                User.address := User.address user |} in
                let db2 := snd (Cart_save cartObj' db1) in
                let db3 := snd (User_save user' db2) in
                (inr tt, user', db3)
        end
  end.

End Checkout.

(** ** Notions used by the statements *)

(** A product is in the cart when some line item's product id, rendered
    as a string, is the given id. *)
Definition InCart (productId : string) (cartItems : list CartItem) : Prop :=
  exists item, In item cartItems /\ toString (_id (product item)) = productId.

(** A product id is in the catalog when some product of the collection
    has it as the string form of its id. *)
Definition InCatalog (productId : string) (db : Db) : Prop :=
  exists p, In p (products db) /\ toString (_id p) = productId.

(** The lines that a deletion of [productId] keeps. *)
Definition keepOthers (productId : string) (cartItems : list CartItem) : list CartItem :=
  List.filter
    (fun item => negb (String.eqb (toString (_id (product item))) productId))
    cartItems.

(** The cart total as the program's arithmetic gives it: the binary64
    products cost times quantity of the lines, added from the first
    line to the last, each sum rounded. *)
Definition cartTotal (cartItems : list CartItem) : float :=
  match cartItems with
  | [] => 0
  | item :: rest => List.fold_left (fun acc line => acc + lineCost line) rest (lineCost item)
  end.

(** The exact rational value of a finite number; NaN and the
    infinities have none. *)
Definition toQ (x : float) : option Q :=
  match Prim2SF x with
  | S754_zero _ => Some (inject_Z 0)
  | S754_finite s m e => Some (Qmult (inject_Z (cond_Zopp s (Zpos m))) (Qpower (inject_Z 2) e))
  | S754_infinity _ => None
  | S754_nan => None
  end.

(** The cart total in exact arithmetic: the sum over the lines of cost
    times quantity, without any rounding. *)
Definition exactTotal (cartItems : list CartItem) : option Q :=
  List.fold_right
    (fun item acc =>
       match toQ (cost (product item)), toQ (quantity item), acc with
       | Some c, Some q, Some a => Some (Qplus (Qmult c q) a)
       | _, _, _ => None
       end)
    (Some (inject_Z 0)) cartItems.

(** The wallet is at least the exact cart total. *)
Definition coversExactTotal (wallet : float) (cartItems : list CartItem) : bool :=
  match toQ wallet, exactTotal cartItems with
  | Some w, Some t => Qle_bool t w
  | _, _ => false
  end.

(** The user object and the store after a successful checkout of a
    cart whose total is [total]. *)
Definition debited (user : User.t) (total : float) : User.t :=
  {| User.email := User.email user;
     User.walletMoney := User.walletMoney user - total;
     User.address := User.address user |}.

Definition checkedOut (user : User.t) (total : float) (db : Db) : Db :=
  set_users (insert (User.email user) (debited user total))
    (set_carts (insert (User.email user) []) db).

(** The line items of the user's cart, none when there is no cart. *)
Definition itemsOf (user : User.t) (db : Db) : option (list CartItem) :=
  carts db !! User.email user.

(** The cart invariants of the data model. *)
Definition uniqueIds (cartItems : list CartItem) : Prop :=
  NoDup (List.map (fun item => _id (product item)) cartItems).

Definition positiveQuantities (cartItems : list CartItem) : Prop :=
  Forall (fun item => (1 <=? quantity item) = true) cartItems.

Definition allCarts (P : list CartItem -> Prop) (db : Db) : Prop :=
  forall e cartItems, carts db !! e = Some cartItems -> P cartItems.

(** ** Sample data *)

Definition oid (s : string) : ObjectId := {| hex := s |}.

Definition pen : Product := {| _id := oid "5f71c1ca04c69a5874e9fd45"; cost := 100 |}.
Definition mug : Product := {| _id := oid "5f71c1ca04c69a5874e9fd46"; cost := 30 |}.

Definition alice : User.t :=
  {| User.email := "alice@example.com"; User.walletMoney := 500;
     User.address := "12 Hill Road" |}.

Definition bob : User.t :=
  {| User.email := "bob@example.com"; User.walletMoney := 150;
     User.address := "ADDRESS_NOT_SET" |}.

Definition addressIsSet (u : User.t) : bool :=
  negb (String.eqb (User.address u) "ADDRESS_NOT_SET").

Definition emptyDb : Db :=
  {| carts := ∅; products := [pen; mug]; users := ∅; cartCreateOk := true |}.

(** A store that refuses the creation of cart documents. *)
Definition refusingDb : Db :=
  {| carts := ∅; products := [pen; mug]; users := ∅; cartCreateOk := false |}.

Definition dbWith (e : string) (cartItems : list CartItem) : Db :=
  set_carts (insert e cartItems) emptyDb.

Definition penLine (q : float) : CartItem := {| product := pen; quantity := q |}.
Definition mugLine (q : float) : CartItem := {| product := mug; quantity := q |}.

(** A cart of three lines whose exact total is 9007199254740998, and a
    user whose wallet holds exactly that. *)
Definition crate : Product :=
  {| _id := oid "5f71c1ca04c69a5874e9fd47"; cost := 9007199254740994 |}.
Definition clip : Product := {| _id := oid "5f71c1ca04c69a5874e9fd48"; cost := 1 |}.
Definition tape : Product := {| _id := oid "5f71c1ca04c69a5874e9fd49"; cost := 3 |}.

Definition carolCart : list CartItem :=
  [ {| product := crate; quantity := 1 |};
    {| product := clip; quantity := 1 |};
    {| product := tape; quantity := 1 |} ].

(** A user whose wallet holds 2^53 and a cart of one line that costs
    one half. *)
Definition sticker : Product := {| _id := oid "5f71c1ca04c69a5874e9fd4b"; cost := 0.5 |}.
Definition stickerLine : CartItem := {| product := sticker; quantity := 1 |}.

Definition dave : User.t :=
  {| User.email := "dave@example.com"; User.walletMoney := 9007199254740992;
     User.address := "7 Quay Street" |}.

(** A free product, ordered in an infinite quantity (a JSON number such
    as 1e999 reads as Infinity). *)
Definition gift : Product := {| _id := oid "5f71c1ca04c69a5874e9fd4a"; cost := 0 |}.
Definition giftLine : CartItem := {| product := gift; quantity := infinity |}.

Definition carol : User.t :=
  {| User.email := "carol@example.com"; User.walletMoney := 9007199254740998;
     User.address := "3 Mill Lane" |}.

(** ** Auxiliary facts *)

Lemma toString_inj (a b : ObjectId) : toString a = toString b -> a = b.
Proof. destruct a, b; simpl; congruence. Qed.

Lemma checkProductInCart_InCart (cartItems : list CartItem) (productId : string) :
  checkProductInCart cartItems productId = true <-> InCart productId cartItems.
Proof.
  unfold InCart. induction cartItems as [|item rest IH]; simpl.
  - split; [discriminate | intros (x & [] & _)].
  - destruct (String.eqb_spec (toString (_id (product item))) productId) as [Heq|Hne].
    + split; [|reflexivity]. intros _. exists item. auto.
    + rewrite IH. split; intros (x & Hin & Hx).
      * exists x. auto.
      * destruct Hin as [->|Hin]; [contradiction | exists x; auto].
Qed.

Lemma checkProductInCart_false (cartItems : list CartItem) (productId : string) :
  ~ InCart productId cartItems -> checkProductInCart cartItems productId = false.
Proof.
  intros Hn. destruct (checkProductInCart cartItems productId) eqn:E; [|reflexivity].
  apply checkProductInCart_InCart in E. contradiction.
Qed.

Lemma findProduct_Some (coll : list Product) (productId : string) (p : Product) :
  findProduct coll productId = Some p ->
  In p coll /\ toString (_id p) = productId.
Proof.
  unfold findProduct. intros H. apply List.find_some in H as [Hin Heq].
  split; [assumption | now apply String.eqb_eq].
Qed.

Lemma set_carts_insert_insert (e : string) (l1 l2 : list CartItem) (db : Db) :
  set_carts (insert e l2) (set_carts (insert e l1) db) = set_carts (insert e l2) db.
Proof. unfold set_carts; simpl. now rewrite insert_insert_eq. Qed.

Lemma set_carts_insert_id (e : string) (l : list CartItem) (db : Db) :
  carts db !! e = Some l -> set_carts (insert e l) db = db.
Proof.
  intros H. unfold set_carts. rewrite (insert_id _ _ _ H). now destruct db.
Qed.

(** ** addProductToCart *)

(** C8.  The membership helper answers [true] exactly when some line
    item's product id, rendered as a string by [toString], equals the
    given product id. *)
Theorem checkProductInCart_iff (cartItems : list CartItem) (productId : string) :
  checkProductInCart cartItems productId = true <->
  exists item, In item cartItems /\ toString (_id (product item)) = productId.
Proof. exact (checkProductInCart_InCart cartItems productId). Qed.

(** C4.  When the user's cart already holds a line for the product id,
    [addProductToCart] fails with a 400 error and the store, hence the
    cart and the quantity of that line, is left as it was. *)
Theorem addProductToCart_duplicate
    (user : User.t) (productId : string) (quantity : float) (db : Db)
    (cartItems : list CartItem) :
  itemsOf user db = Some cartItems ->
  InCart productId cartItems ->
  addProductToCart user productId quantity db =
    (inl (ApiError BAD_REQUEST
       (Some "Product already in cart. Use the cart sidebar to update or remove product from cart")),
     db)
  /\ itemsOf user (snd (addProductToCart user productId quantity db)) = Some cartItems.
Proof.
  unfold itemsOf. intros Hcart Hin.
  apply checkProductInCart_InCart in Hin.
  assert (Hrun : addProductToCart user productId quantity db =
    (inl (ApiError BAD_REQUEST
       (Some "Product already in cart. Use the cart sidebar to update or remove product from cart")),
     db)).
  { unfold addProductToCart, bind, Cart_findOne. rewrite Hcart. simpl. now rewrite Hin. }
  rewrite Hrun. simpl. auto.
Qed.

Lemma addProductToCart_duplicate_witness :
  addProductToCart alice "5f71c1ca04c69a5874e9fd45" 9
    (dbWith "alice@example.com" [penLine 1]) =
    (inl (ApiError BAD_REQUEST
       (Some "Product already in cart. Use the cart sidebar to update or remove product from cart")),
     dbWith "alice@example.com" [penLine 1]).
Proof.
  refine (proj1 (addProductToCart_duplicate alice "5f71c1ca04c69a5874e9fd45" 9
            (dbWith "alice@example.com" [penLine 1]) [penLine 1] _ _)).
  - reflexivity.
  - exists (penLine 1). split; [left|]; reflexivity.
Defined.

(** What [addProductToCart] does once it holds a cart document with the
    line items [cartItems], from the store [db]. *)
Lemma addProductToCart_existing_cart
    (user : User.t) (productId : string) (quantity : float) (db : Db)
    (cartItems : list CartItem) :
  itemsOf user db = Some cartItems ->
  addProductToCart user productId quantity db =
    if checkProductInCart cartItems productId
    then (inl (ApiError BAD_REQUEST
            (Some "Product already in cart. Use the cart sidebar to update or remove product from cart")),
          db)
    else match findProduct (products db) productId with
         | None => (inl (ApiError BAD_REQUEST (Some "Product doesn't exist in database")), db)
         | Some p =>
             let cartItems' := cartItems ++ [ {| product := p; quantity := quantity |} ] in
             (inr {| Cart.email := User.email user; Cart.cartItems := cartItems' |},
              set_carts (insert (User.email user) cartItems') db)
         end.
Proof.
  unfold itemsOf. intros Hcart.
  unfold addProductToCart, bind, Cart_findOne. rewrite Hcart. simpl.
  destruct (checkProductInCart cartItems productId); [reflexivity|].
  unfold Product_findById.
  destruct (findProduct (products db) productId); reflexivity.
Qed.

Lemma addProductToCart_no_cart
    (user : User.t) (productId : string) (quantity : float) (db : Db) :
  itemsOf user db = None ->
  addProductToCart user productId quantity db =
    if cartCreateOk db
    then match findProduct (products db) productId with
         | None => (inl (ApiError BAD_REQUEST (Some "Product doesn't exist in database")),
                    set_carts (insert (User.email user) []) db)
         | Some p =>
             let cartItems' := [ {| product := p; quantity := quantity |} ] in
             (inr {| Cart.email := User.email user; Cart.cartItems := cartItems' |},
              set_carts (insert (User.email user) cartItems') db)
         end
    else (inl (ApiError INTERNAL_SERVER_ERROR None), db).
Proof.
  unfold itemsOf. intros Hcart.
  unfold addProductToCart, bind, Cart_findOne, Cart_create. rewrite Hcart. simpl.
  destruct (cartCreateOk db); [|reflexivity]. simpl.
  unfold Product_findById, findProduct; simpl.
  destruct (List.find _ (products db)); [|reflexivity].
  simpl. unfold Cart_save. simpl. now rewrite set_carts_insert_insert.
Qed.

(** C5, as amended.  For a product id found in the catalog and not in
    the user's cart, and any quantity, [addProductToCart] succeeds as
    soon as the user has a cart or the store accepts the creation of
    one: it returns and persists the cart whose lines are the previous
    ones (none for a new cart), unchanged and in order, followed by one
    new line holding the catalog's product and the given quantity. *)
Theorem addProductToCart_appends
    (user : User.t) (productId : string) (quantity : float) (db : Db) (p : Product) :
  findProduct (products db) productId = Some p ->
  ~ InCart productId (default [] (itemsOf user db)) ->
  is_Some (itemsOf user db) \/ cartCreateOk db = true ->
  let cartItems' :=
    default [] (itemsOf user db) ++ [ {| product := p; quantity := quantity |} ] in
  addProductToCart user productId quantity db =
    (inr {| Cart.email := User.email user; Cart.cartItems := cartItems' |},
     set_carts (insert (User.email user) cartItems') db)
  /\ In p (products db) /\ toString (_id p) = productId.
Proof.
  intros Hfind Hnot Hcart. simpl. split; [|now apply findProduct_Some].
  destruct (itemsOf user db) as [cartItems|] eqn:E; simpl in *.
  - rewrite (addProductToCart_existing_cart _ _ _ _ _ E).
    rewrite (checkProductInCart_false _ _ Hnot), Hfind. reflexivity.
  - rewrite (addProductToCart_no_cart _ _ _ _ E).
    destruct Hcart as [[x Hx]| ->]; [discriminate|].
    rewrite Hfind. reflexivity.
Qed.

Lemma addProductToCart_appends_witness :
  addProductToCart alice "5f71c1ca04c69a5874e9fd46" 3
    (dbWith "alice@example.com" [penLine 1]) =
    (inr {| Cart.email := "alice@example.com";
            Cart.cartItems := [penLine 1; mugLine 3] |},
     set_carts (insert "alice@example.com" [penLine 1; mugLine 3])
       (dbWith "alice@example.com" [penLine 1])).
Proof.
  refine (proj1 (addProductToCart_appends alice "5f71c1ca04c69a5874e9fd46" 3
            (dbWith "alice@example.com" [penLine 1]) mug _ _ _)).
  - reflexivity.
  - intros (item & Hin & Hid). simpl in Hin.
    destruct Hin as [<-|[]]. discriminate Hid.
  - left. exists [penLine 1]. reflexivity.
Defined.

(** C5, counterexample.  The product is in the catalog and the user has
    no cart, yet the call fails: the store refuses the creation of the
    cart and the service raises the 500 error. *)
Lemma addProductToCart_creation_refused :
  findProduct (products refusingDb) "5f71c1ca04c69a5874e9fd45" = Some pen
  /\ itemsOf alice refusingDb = None
  /\ addProductToCart alice "5f71c1ca04c69a5874e9fd45" 1 refusingDb =
       (inl (ApiError INTERNAL_SERVER_ERROR None), refusingDb).
Proof. repeat split. Qed.

(** C3, as amended.  For a product id absent from the catalog
    [addProductToCart] always fails and changes no line item of any
    cart.  With an existing cart the failure is a 400 error (the
    message is "Product doesn't exist in database" unless the cart
    still holds a line for that id) and the store is left as it was.
    Without a cart, the empty cart created for the user before the
    lookup stays in the store after the 400 error; if the creation is
    refused the failure is the 500 error and the store is left as it
    was. *)
Theorem addProductToCart_unknown_product
    (user : User.t) (productId : string) (quantity : float) (db : Db) :
  findProduct (products db) productId = None ->
  (forall cartItems, itemsOf user db = Some cartItems ->
     exists msg,
       addProductToCart user productId quantity db =
         (inl (ApiError BAD_REQUEST (Some msg)), db)
       /\ (~ InCart productId cartItems -> msg = "Product doesn't exist in database"))
  /\ (itemsOf user db = None -> cartCreateOk db = true ->
        addProductToCart user productId quantity db =
          (inl (ApiError BAD_REQUEST (Some "Product doesn't exist in database")),
           set_carts (insert (User.email user) []) db))
  /\ (itemsOf user db = None -> cartCreateOk db = false ->
        addProductToCart user productId quantity db =
          (inl (ApiError INTERNAL_SERVER_ERROR None), db))
  /\ (exists e, fst (addProductToCart user productId quantity db) = inl e)
  /\ (forall owner cartItems, carts db !! owner = Some cartItems ->
        carts (snd (addProductToCart user productId quantity db)) !! owner = Some cartItems).
Proof.
  intros Hfind.
  assert (H1 : forall cartItems, itemsOf user db = Some cartItems ->
     exists msg,
       addProductToCart user productId quantity db =
         (inl (ApiError BAD_REQUEST (Some msg)), db)
       /\ (~ InCart productId cartItems -> msg = "Product doesn't exist in database")).
  { intros cartItems E. rewrite (addProductToCart_existing_cart _ _ _ _ _ E), Hfind.
    destruct (checkProductInCart cartItems productId) eqn:Hc.
    - eexists. split; [reflexivity|]. intros Hn.
      apply checkProductInCart_InCart in Hc. contradiction.
    - eexists. split; reflexivity. }
  assert (H2 : itemsOf user db = None -> cartCreateOk db = true ->
        addProductToCart user productId quantity db =
          (inl (ApiError BAD_REQUEST (Some "Product doesn't exist in database")),
           set_carts (insert (User.email user) []) db)).
  { intros E Hok. now rewrite (addProductToCart_no_cart _ _ _ _ E), Hok, Hfind. }
  assert (H3 : itemsOf user db = None -> cartCreateOk db = false ->
        addProductToCart user productId quantity db =
          (inl (ApiError INTERNAL_SERVER_ERROR None), db)).
  { intros E Hok. now rewrite (addProductToCart_no_cart _ _ _ _ E), Hok. }
  repeat split; try assumption.
  - destruct (itemsOf user db) as [cartItems|] eqn:E.
    + destruct (H1 cartItems eq_refl) as (msg & -> & _). eexists; reflexivity.
    + destruct (cartCreateOk db) eqn:Hok.
      * rewrite (H2 eq_refl eq_refl). eexists; reflexivity.
      * rewrite (H3 eq_refl eq_refl). eexists; reflexivity.
  - intros owner cartItems Hown.
    destruct (itemsOf user db) as [mine|] eqn:E.
    + destruct (H1 mine eq_refl) as (msg & -> & _). exact Hown.
    + destruct (cartCreateOk db) eqn:Hok.
      * rewrite (H2 eq_refl eq_refl). simpl.
        rewrite lookup_insert_ne; [exact Hown|].
        intros <-. unfold itemsOf in E. congruence.
      * rewrite (H3 eq_refl eq_refl). exact Hown.
Qed.

Lemma addProductToCart_unknown_product_witness :
  (exists msg,
     addProductToCart alice "000000000000000000000000" 1
       (dbWith "alice@example.com" [penLine 1]) =
       (inl (ApiError BAD_REQUEST (Some msg)), dbWith "alice@example.com" [penLine 1]))
  /\ addProductToCart alice "000000000000000000000000" 1 emptyDb =
       (inl (ApiError BAD_REQUEST (Some "Product doesn't exist in database")),
        dbWith "alice@example.com" [])
  /\ addProductToCart alice "000000000000000000000000" 1 refusingDb =
       (inl (ApiError INTERNAL_SERVER_ERROR None), set_carts id refusingDb).
Proof.
  split; [|split].
  - destruct (addProductToCart_unknown_product alice "000000000000000000000000" 1
                (dbWith "alice@example.com" [penLine 1]) eq_refl) as (H & _).
    destruct (H [penLine 1] eq_refl) as (msg & Hrun & _).
    exists msg. exact Hrun.
  - destruct (addProductToCart_unknown_product alice "000000000000000000000000" 1
                emptyDb eq_refl) as (_ & H & _).
    exact (H eq_refl eq_refl).
  - destruct (addProductToCart_unknown_product alice "000000000000000000000000" 1
                refusingDb eq_refl) as (_ & _ & H & _).
    exact (H eq_refl eq_refl).
Defined.

(** C3, counterexample.  The product id is not in the catalog and the
    user has no cart: the call fails with the 400 error, but the store
    now holds an empty cart for the user, so that [getCartByUser], which
    failed with the 404 error before the call, returns a cart after
    it. *)
Lemma addProductToCart_unknown_product_creates_cart :
  findProduct (products emptyDb) "000000000000000000000000" = None
  /\ itemsOf alice emptyDb = None
  /\ addProductToCart alice "000000000000000000000000" 1 emptyDb =
       (inl (ApiError BAD_REQUEST (Some "Product doesn't exist in database")),
        dbWith "alice@example.com" [])
  /\ itemsOf alice (dbWith "alice@example.com" []) = Some []
  /\ fst (getCartByUser alice emptyDb) =
       inl (ApiError NOT_FOUND (Some "User does not have a cart"))
  /\ fst (getCartByUser alice (dbWith "alice@example.com" [])) =
       inr {| Cart.email := "alice@example.com"; Cart.cartItems := [] |}
  /\ dbWith "alice@example.com" [] <> emptyDb.
Proof.
  repeat split. intros H. apply (f_equal (fun d => carts d !! "alice@example.com")) in H.
  discriminate H.
Qed.

(** ** updateProductInCart *)

Lemma findProduct_InCatalog (db : Db) (productId : string) :
  InCatalog productId db -> exists p, findProduct (products db) productId = Some p.
Proof.
  intros (p & Hin & Hid). unfold findProduct.
  destruct (List.find _ (products db)) as [p'|] eqn:E; [now exists p'|].
  apply (List.find_none _ _ E) in Hin. simpl in Hin.
  apply String.eqb_neq in Hin. contradiction.
Qed.

Lemma findProduct_not_InCatalog (db : Db) (productId : string) :
  ~ InCatalog productId db -> findProduct (products db) productId = None.
Proof.
  intros Hn. destruct (findProduct (products db) productId) as [p|] eqn:E; [|reflexivity].
  destruct Hn. exists p. now apply findProduct_Some.
Qed.

(** The loop of [updateProductInCart] is an update at the index of the
    first line for the product id. *)
Lemma updateQuantity_insert (cartItems : list CartItem) (productId : string) (q : float) :
  InCart productId cartItems ->
  exists (i : nat) (item : CartItem),
    cartItems !! i = Some item
    /\ toString (_id (product item)) = productId
    /\ (forall (j : nat) (other : CartItem), (j < i)%nat -> cartItems !! j = Some other ->
          toString (_id (product other)) <> productId)
    /\ updateQuantity cartItems productId q =
         <[i := {| product := product item; quantity := q |}]> cartItems.
Proof.
  induction cartItems as [|item rest IH]; intros Hin.
  - destruct Hin as (x & [] & _).
  - simpl. destruct (String.eqb_spec (toString (_id (product item))) productId) as [Heq|Hne].
    + exists 0%nat, item. repeat split; try assumption. intros j other Hj. lia.
    + destruct IH as (i & it & Hi & Hid & Hbefore & Hupd).
      { destruct Hin as (x & [->|Hx] & Hxid); [contradiction | exists x; auto]. }
      exists (S i), it. repeat split; try assumption.
      * intros [|j] other Hj Hlook; simpl in Hlook.
        -- injection Hlook as <-. assumption.
        -- apply (Hbefore j); [lia | assumption].
      * simpl. now rewrite Hupd.
Qed.

Lemma updateQuantity_idem (cartItems : list CartItem) (productId : string) (q : float) :
  updateQuantity (updateQuantity cartItems productId q) productId q =
  updateQuantity cartItems productId q.
Proof.
  induction cartItems as [|item rest IH]; simpl; [reflexivity|].
  destruct (String.eqb (toString (_id (product item))) productId) eqn:E; simpl; rewrite E.
  - reflexivity.
  - now rewrite IH.
Qed.

Lemma updateQuantity_ids (cartItems : list CartItem) (productId : string) (q : float) :
  List.map (fun item => _id (product item)) (updateQuantity cartItems productId q) =
  List.map (fun item => _id (product item)) cartItems.
Proof.
  induction cartItems as [|item rest IH]; simpl; [reflexivity|].
  destruct (String.eqb (toString (_id (product item))) productId); simpl; [reflexivity|].
  now rewrite IH.
Qed.

Lemma checkProductInCart_updateQuantity (cartItems : list CartItem) (productId pid : string) (q : float) :
  checkProductInCart (updateQuantity cartItems productId q) pid =
  checkProductInCart cartItems pid.
Proof.
  induction cartItems as [|item rest IH]; simpl; [reflexivity|].
  destruct (String.eqb (toString (_id (product item))) productId); simpl; [reflexivity|].
  now rewrite IH.
Qed.

Lemma updateProductInCart_run
    (user : User.t) (productId : string) (quantity : float) (db : Db)
    (cartItems : list CartItem) :
  itemsOf user db = Some cartItems ->
  updateProductInCart user productId quantity db =
    match findProduct (products db) productId with
    | None => (inl (ApiError BAD_REQUEST (Some "Product doesn't exist in database")), db)
    | Some _ =>
        if checkProductInCart cartItems productId
        then
          let cartItems' := updateQuantity cartItems productId quantity in
          (inr {| Cart.email := User.email user; Cart.cartItems := cartItems' |},
           set_carts (insert (User.email user) cartItems') db)
        else (inl (ApiError BAD_REQUEST (Some "Product not in cart")), db)
    end.
Proof.
  unfold itemsOf. intros Hcart.
  unfold updateProductInCart, bind, Cart_findOne, Product_findById. rewrite Hcart. simpl.
  destruct (findProduct (products db) productId); [|reflexivity].
  destruct (checkProductInCart cartItems productId); reflexivity.
Qed.

(** C6.  When the user's cart holds a line for a product id of the
    catalog, [updateProductInCart] succeeds; the cart it returns and
    persists is the previous one with the quantity of that line (the
    first one for the id) replaced by the given value and every other
    line unchanged; and running the same update again on the resulting
    store gives the same result and the same store. *)
Theorem updateProductInCart_replaces
    (user : User.t) (productId : string) (quantity : float) (db : Db)
    (cartItems : list CartItem) :
  itemsOf user db = Some cartItems ->
  InCatalog productId db ->
  InCart productId cartItems ->
  exists (i : nat) (item : CartItem),
    cartItems !! i = Some item
    /\ toString (_id (product item)) = productId
    /\ (forall (j : nat) (other : CartItem), (j < i)%nat -> cartItems !! j = Some other ->
          toString (_id (product other)) <> productId)
    /\ let cartItems' :=
         <[i := {| product := product item; quantity := quantity |}]> cartItems in
       updateProductInCart user productId quantity db =
         (inr {| Cart.email := User.email user; Cart.cartItems := cartItems' |},
          set_carts (insert (User.email user) cartItems') db)
       /\ updateProductInCart user productId quantity
            (snd (updateProductInCart user productId quantity db)) =
          updateProductInCart user productId quantity db.
Proof.
  intros Hcart Hcat Hin.
  destruct (findProduct_InCatalog _ _ Hcat) as (p & Hp).
  destruct (updateQuantity_insert cartItems productId quantity Hin)
    as (i & item & Hi & Hid & Hbefore & Hupd).
  exists i, item. repeat split; try assumption.
  - rewrite (updateProductInCart_run _ _ _ _ _ Hcart), Hp.
    apply checkProductInCart_InCart in Hin. rewrite Hin. simpl. now rewrite Hupd.
  - rewrite (updateProductInCart_run _ _ _ _ _ Hcart), Hp.
    apply checkProductInCart_InCart in Hin. rewrite Hin. simpl.
    rewrite (updateProductInCart_run _ _ _ _ (updateQuantity cartItems productId quantity)).
    + simpl. rewrite Hp, checkProductInCart_updateQuantity, Hin. simpl.
      now rewrite updateQuantity_idem, set_carts_insert_insert.
    + unfold itemsOf. simpl. apply lookup_insert_eq.
Qed.

Lemma updateProductInCart_replaces_witness :
  exists (i : nat) (item : CartItem),
    [penLine 1; mugLine 2] !! i = Some item
    /\ toString (_id (product item)) = "5f71c1ca04c69a5874e9fd46"
    /\ updateProductInCart alice "5f71c1ca04c69a5874e9fd46" 5
         (dbWith "alice@example.com" [penLine 1; mugLine 2]) =
       (inr {| Cart.email := "alice@example.com";
               Cart.cartItems :=
                 <[i := {| product := product item; quantity := 5 |}]>
                   [penLine 1; mugLine 2] |},
        set_carts
          (insert "alice@example.com"
             (<[i := {| product := product item; quantity := 5 |}]>
                [penLine 1; mugLine 2]))
          (dbWith "alice@example.com" [penLine 1; mugLine 2])).
Proof.
  destruct (updateProductInCart_replaces alice "5f71c1ca04c69a5874e9fd46" 5
              (dbWith "alice@example.com" [penLine 1; mugLine 2]) [penLine 1; mugLine 2])
    as (i & item & Hi & Hid & _ & Hrun & _).
  - reflexivity.
  - exists mug. split; [right; left|]; reflexivity.
  - exists (mugLine 2). split; [right; left|]; reflexivity.
  - exists i, item. repeat split; assumption.
Defined.

(** ** deleteProductFromCart *)

Lemma keepOthers_id (productId : string) (cartItems : list CartItem) :
  ~ InCart productId cartItems -> keepOthers productId cartItems = cartItems.
Proof.
  unfold keepOthers, InCart. induction cartItems as [|item rest IH]; intros Hn; simpl.
  - reflexivity.
  - destruct (String.eqb_spec (toString (_id (product item))) productId) as [Heq|Hne]; simpl.
    + destruct Hn. exists item. split; [left; reflexivity | assumption].
    + rewrite IH; [reflexivity|]. intros (x & Hx & Hid). apply Hn.
      exists x. split; [right|]; assumption.
Qed.

(** With distinct ids the filter takes out one line and keeps both
    sides of it. *)
Lemma keepOthers_split (productId : string) (cartItems : list CartItem) :
  uniqueIds cartItems -> InCart productId cartItems ->
  exists l1 item l2,
    cartItems = l1 ++ item :: l2
    /\ toString (_id (product item)) = productId
    /\ keepOthers productId cartItems = l1 ++ l2.
Proof.
  unfold uniqueIds. induction cartItems as [|item rest IH]; intros Hnd Hin.
  - destruct Hin as (x & [] & _).
  - simpl in Hnd. apply NoDup_cons in Hnd as [Hfresh Hnd].
    unfold keepOthers. simpl.
    destruct (String.eqb_spec (toString (_id (product item))) productId) as [Heq|Hne]; simpl.
    + exists [], item, rest. split; [reflexivity|]. split; [assumption|]. simpl.
      apply keepOthers_id. intros (x & Hx & Hid). apply Hfresh.
      apply list_elem_of_In, in_map_iff. exists x. split; [|assumption].
      apply toString_inj. congruence.
    + destruct IH as (l1 & it & l2 & -> & Hid & Hk); [assumption| |].
      { destruct Hin as (x & [->|Hx] & Hxid); [contradiction | exists x; auto]. }
      exists (item :: l1), it, l2. split; [reflexivity|]. split; [assumption|].
      simpl. f_equal. exact Hk.
Qed.

Lemma deleteProductFromCart_run
    (user : User.t) (productId : string) (db : Db) (cartItems : list CartItem) :
  itemsOf user db = Some cartItems ->
  deleteProductFromCart user productId db =
    if checkProductInCart cartItems productId
    then (inr {| Cart.email := User.email user;
                 Cart.cartItems := keepOthers productId cartItems |},
          set_carts (insert (User.email user) (keepOthers productId cartItems)) db)
    else (inl (ApiError BAD_REQUEST (Some "Product not in cart")), db).
Proof.
  unfold itemsOf. intros Hcart.
  unfold deleteProductFromCart, bind, Cart_findOne. rewrite Hcart. simpl.
  destruct (checkProductInCart cartItems productId); reflexivity.
Qed.

(** C7.  With a product id present in the user's cart,
    [deleteProductFromCart] returns and persists the cart made of the
    lines for the other ids, unchanged and in order, and no line for
    the id (with distinct ids: the cart minus the single targeted
    line).  With a product id not in the cart it fails with the 400
    error "Product not in cart", without a cart with the 400 error
    "User does not have a cart", and in both cases the store is left as
    it was. *)
Theorem deleteProductFromCart_spec (user : User.t) (productId : string) (db : Db) :
  (forall cartItems, itemsOf user db = Some cartItems -> InCart productId cartItems ->
     let cartItems' := keepOthers productId cartItems in
     deleteProductFromCart user productId db =
       (inr {| Cart.email := User.email user; Cart.cartItems := cartItems' |},
        set_carts (insert (User.email user) cartItems') db)
     /\ (forall item, In item cartItems' <->
           In item cartItems /\ toString (_id (product item)) <> productId)
     /\ (uniqueIds cartItems ->
           exists l1 item l2,
             cartItems = l1 ++ item :: l2
             /\ toString (_id (product item)) = productId
             /\ cartItems' = l1 ++ l2))
  /\ (forall cartItems, itemsOf user db = Some cartItems -> ~ InCart productId cartItems ->
        deleteProductFromCart user productId db =
          (inl (ApiError BAD_REQUEST (Some "Product not in cart")), db))
  /\ (itemsOf user db = None ->
        deleteProductFromCart user productId db =
          (inl (ApiError BAD_REQUEST (Some "User does not have a cart")), db)).
Proof.
  split; [|split].
  - intros cartItems Hcart Hin. simpl. split; [|split].
    + rewrite (deleteProductFromCart_run _ _ _ _ Hcart).
      apply checkProductInCart_InCart in Hin. now rewrite Hin.
    + intros item. unfold keepOthers. rewrite List.filter_In, Bool.negb_true_iff.
      now rewrite String.eqb_neq.
    + intros Hnd. now apply keepOthers_split.
  - intros cartItems Hcart Hn.
    rewrite (deleteProductFromCart_run _ _ _ _ Hcart).
    now rewrite (checkProductInCart_false _ _ Hn).
  - unfold itemsOf. intros Hcart.
    unfold deleteProductFromCart, bind, Cart_findOne. now rewrite Hcart.
Qed.

Lemma deleteProductFromCart_spec_witness :
  deleteProductFromCart alice "5f71c1ca04c69a5874e9fd45"
    (dbWith "alice@example.com" [penLine 1; mugLine 2]) =
    (inr {| Cart.email := "alice@example.com"; Cart.cartItems := [mugLine 2] |},
     set_carts (insert "alice@example.com" [mugLine 2])
       (dbWith "alice@example.com" [penLine 1; mugLine 2]))
  /\ deleteProductFromCart alice "5f71c1ca04c69a5874e9fd45"
       (dbWith "alice@example.com" [mugLine 2]) =
       (inl (ApiError BAD_REQUEST (Some "Product not in cart")),
        dbWith "alice@example.com" [mugLine 2])
  /\ deleteProductFromCart alice "5f71c1ca04c69a5874e9fd45" emptyDb =
       (inl (ApiError BAD_REQUEST (Some "User does not have a cart")), emptyDb).
Proof.
  split; [|split].
  - refine (proj1 (proj1 (deleteProductFromCart_spec alice "5f71c1ca04c69a5874e9fd45"
              (dbWith "alice@example.com" [penLine 1; mugLine 2]))
              [penLine 1; mugLine 2] _ _)).
    + reflexivity.
    + exists (penLine 1). split; [left|]; reflexivity.
  - refine (proj1 (proj2 (deleteProductFromCart_spec alice "5f71c1ca04c69a5874e9fd45"
              (dbWith "alice@example.com" [mugLine 2]))) [mugLine 2] _ _).
    + reflexivity.
    + intros (item & [<-|[]] & Hid). discriminate Hid.
  - refine (proj2 (proj2 (deleteProductFromCart_spec alice "5f71c1ca04c69a5874e9fd45"
              emptyDb)) _).
    reflexivity.
Defined.

(** ** checkout *)

Lemma fold_left_lineCost (rest : list CartItem) (acc : float) :
  List.fold_left PrimFloat.add
    (List.map (fun item => cost (product item) * quantity item) rest) acc =
  List.fold_left (fun acc line => acc + lineCost line) rest acc.
Proof.
  revert acc. induction rest as [|item rest IH]; intros acc; simpl; [reflexivity|].
  apply IH.
Qed.

(** On a cart with a line item the reduce of [checkout] is the cart
    total. *)
Lemma reduce_cartTotal (item : CartItem) (rest : list CartItem) :
  reduce PrimFloat.add
    (List.map (fun item => cost (product item) * quantity item) (item :: rest)) =
  Some (cartTotal (item :: rest)).
Proof. simpl. now rewrite fold_left_lineCost. Qed.

(** The order of binary64: a number that is at least another one is not
    below it. *)
Lemma SFcompare_antisym (x y : spec_float) :
  SFcompare y x = option_map CompOpp (SFcompare x y).
Proof.
  destruct x as [sx|sx| |sx mx ex], y as [sy|sy| |sy my ey]; simpl;
    try reflexivity; try (destruct sx; reflexivity); try (destruct sy; reflexivity);
    try (destruct sx, sy; reflexivity).
  destruct sx, sy; simpl; try reflexivity.
  - rewrite (Z.compare_antisym ey ex).
    destruct (ey ?= ex)%Z; simpl; try reflexivity.
    rewrite (Pos.compare_cont_antisym mx my Eq). simpl.
    now destruct (Pos.compare_cont Eq mx my).
  - rewrite (Z.compare_antisym ey ex).
    destruct (ey ?= ex)%Z; simpl; try reflexivity.
    now rewrite (Pos.compare_cont_antisym mx my Eq).
Qed.

Lemma leb_not_ltb (x y : float) : (x <=? y) = true -> (y <? x) = false.
Proof.
  rewrite leb_spec, ltb_spec. unfold SFleb, SFltb.
  rewrite (SFcompare_antisym (Prim2SF x) (Prim2SF y)).
  destruct (SFcompare (Prim2SF x) (Prim2SF y)) as [[| |]|]; simpl; congruence.
Qed.

Section CheckoutFacts.

Variable hasSetNonDefaultAddress : User.t -> bool.

Lemma checkout_run (user : User.t) (db : Db) :
  checkout hasSetNonDefaultAddress user db =
    match itemsOf user db with
    | None => (inl (ApiError NOT_FOUND (Some "User does not have a cart")), user, db)
    | Some [] => (inl (ApiError BAD_REQUEST (Some "No products in cart")), user, db)
    | Some cartItems =>
        if User.walletMoney user <? cartTotal cartItems
        then (inl (ApiError BAD_REQUEST (Some "Insufficient Balance")), user, db)
        else if hasSetNonDefaultAddress user
        then (inr tt, debited user (cartTotal cartItems),
              checkedOut user (cartTotal cartItems) db)
        else (inl (ApiError BAD_REQUEST (Some "No address set")), user, db)
    end.
Proof.
  unfold checkout, getCartByUser, bind, Cart_findOne, itemsOf.
  destruct (carts db !! User.email user) as [[|item rest]|]; try reflexivity.
  cbn [fmap option_fmap option_map]. unfold ret.
  cbn [Cart.cartItems Cart.email length Nat.eqb]. rewrite reduce_cartTotal.
  destruct (User.walletMoney user <? cartTotal (item :: rest)); [reflexivity|].
  destruct (hasSetNonDefaultAddress user); reflexivity.
Qed.

(** C1, as amended.  When the user's cart exists with at least one
    line, the wallet is at least the cart total as [checkout] computes
    it (the binary64 products added from the first line to the last)
    and a non-default address is set, [checkout] succeeds: the user's
    wallet is the binary64 difference of the previous wallet and that
    total, the stored cart has no line item, and the debited user
    record is stored. *)
Theorem checkout_succeeds (user : User.t) (db : Db) (cartItems : list CartItem) :
  itemsOf user db = Some cartItems ->
  cartItems <> [] ->
  (cartTotal cartItems <=? User.walletMoney user) = true ->
  hasSetNonDefaultAddress user = true ->
  let total := cartTotal cartItems in
  let user' := debited user total in
  checkout hasSetNonDefaultAddress user db = (inr tt, user', checkedOut user total db)
  /\ User.walletMoney user' = User.walletMoney user - total
  /\ itemsOf user (checkedOut user total db) = Some []
  /\ users (checkedOut user total db) !! User.email user = Some user'.
Proof.
  intros Hcart Hne Hbal Haddr. simpl. repeat split.
  - rewrite checkout_run, Hcart. destruct cartItems as [|item rest]; [contradiction|].
    rewrite Haddr. now rewrite (leb_not_ltb _ _ Hbal).
  - unfold itemsOf, checkedOut. simpl. apply lookup_insert_eq.
  - unfold checkedOut. simpl. apply lookup_insert_eq.
Qed.

(** C2.  [checkout] tests, in this order, that the cart exists (404),
    that it has a line item (400 "No products in cart"), that the
    wallet is not below the total (400 "Insufficient Balance", whatever
    the address), and that an address is set (400 "No address set",
    reached only when the balance test has passed); each of these
    failures leaves the user object and the store as they were. *)
Theorem checkout_precondition_order (user : User.t) (db : Db) :
  (itemsOf user db = None ->
     checkout hasSetNonDefaultAddress user db =
       (inl (ApiError NOT_FOUND (Some "User does not have a cart")), user, db))
  /\ (itemsOf user db = Some [] ->
        checkout hasSetNonDefaultAddress user db =
          (inl (ApiError BAD_REQUEST (Some "No products in cart")), user, db))
  /\ (forall cartItems, itemsOf user db = Some cartItems -> cartItems <> [] ->
        (User.walletMoney user <? cartTotal cartItems) = true ->
        checkout hasSetNonDefaultAddress user db =
          (inl (ApiError BAD_REQUEST (Some "Insufficient Balance")), user, db))
  /\ (forall cartItems, itemsOf user db = Some cartItems -> cartItems <> [] ->
        (User.walletMoney user <? cartTotal cartItems) = false ->
        hasSetNonDefaultAddress user = false ->
        checkout hasSetNonDefaultAddress user db =
          (inl (ApiError BAD_REQUEST (Some "No address set")), user, db)).
Proof.
  rewrite checkout_run. repeat split.
  - now intros ->.
  - now intros ->.
  - intros cartItems -> Hne Hbal. destruct cartItems; [contradiction|].
    now rewrite Hbal.
  - intros cartItems -> Hne Hbal Haddr. destruct cartItems; [contradiction|].
    now rewrite Hbal, Haddr.
Qed.

(** C10.  The reduce that computes the total has no initial value and
    yields nothing on the empty list; for the cart that [checkout]
    reads, once the guard on the number of line items has let it
    through, the reduce yields a total; and no call of [checkout] ends
    in the [TypeError] of its failure branch. *)
Theorem checkout_total_defined (user : User.t) (db : Db) :
  reduce PrimFloat.add
    (List.map (fun item => cost (product item) * quantity item) []) = None
  /\ (forall cartItems, itemsOf user db = Some cartItems ->
        Nat.eqb (length cartItems) 0 = false ->
        exists total,
          reduce PrimFloat.add
            (List.map (fun item => cost (product item) * quantity item) cartItems) =
          Some total)
  /\ fst (fst (checkout hasSetNonDefaultAddress user db)) <> inl TypeError.
Proof.
  split; [reflexivity|]. split.
  - intros cartItems _ Hguard. destruct cartItems as [|item rest]; [discriminate|].
    eexists. apply reduce_cartTotal.
  - rewrite checkout_run.
    destruct (itemsOf user db) as [[|item rest]|]; try (simpl; discriminate).
    destruct (User.walletMoney user <? cartTotal (item :: rest)); [simpl; discriminate|].
    destruct (hasSetNonDefaultAddress user); simpl; discriminate.
Qed.

End CheckoutFacts.

Lemma checkout_succeeds_witness :
  checkout addressIsSet alice (dbWith "alice@example.com" [penLine 2]) =
    (inr tt,
     {| User.email := "alice@example.com"; User.walletMoney := 300;
        User.address := "12 Hill Road" |},
     checkedOut alice 200 (dbWith "alice@example.com" [penLine 2])).
Proof.
  refine (proj1 (checkout_succeeds addressIsSet alice
            (dbWith "alice@example.com" [penLine 2]) [penLine 2] _ _ _ _)).
  - reflexivity.
  - discriminate.
  - reflexivity.
  - reflexivity.
Defined.

(** C1, counterexample.  The user's wallet holds 9007199254740998 and
    the exact total of the three lines of the cart (costs
    9007199254740994, 1 and 3, quantity 1 each) is that same amount, so
    the wallet is at least the sum of cost times quantity and the
    address is set; yet [checkout] fails: its binary64 sum rounds
    twice, to 9007199254741000, which the wallet is below.  And where a
    checkout succeeds the wallet need not go down by the total: a
    wallet of 2^53 that pays a total of one half is left at 2^53. *)
Lemma checkout_exact_total_refused :
  (coversExactTotal (User.walletMoney dave) [stickerLine] = true
   /\ (exists t, exactTotal [stickerLine] = Some t /\ Qeq_bool t (1 # 2) = true)
   /\ exists user' db',
        checkout addressIsSet dave (dbWith "dave@example.com" [stickerLine]) =
          (inr tt, user', db')
        /\ User.walletMoney user' = User.walletMoney dave)
  /\ itemsOf carol (dbWith "carol@example.com" carolCart) = Some carolCart
  /\ (exists t, exactTotal carolCart = Some t
               /\ Qeq_bool t (inject_Z 9007199254740998) = true)
  /\ (exists w, toQ (User.walletMoney carol) = Some w
               /\ Qeq_bool w (inject_Z 9007199254740998) = true)
  /\ coversExactTotal (User.walletMoney carol) carolCart = true
  /\ addressIsSet carol = true
  /\ cartTotal carolCart = 9007199254741000
  /\ checkout addressIsSet carol (dbWith "carol@example.com" carolCart) =
       (inl (ApiError BAD_REQUEST (Some "Insufficient Balance")), carol,
        dbWith "carol@example.com" carolCart).
Proof.
  split.
  { split; [vm_compute; reflexivity|]. split; [eexists; split; vm_compute; reflexivity|].
    do 2 eexists. split; vm_compute; reflexivity. }
  split; [reflexivity|]. split; [eexists; split; vm_compute; reflexivity|].
  split; [eexists; split; vm_compute; reflexivity|].
  split; [vm_compute; reflexivity|]. split; [reflexivity|].
  split; vm_compute; reflexivity.
Qed.

Lemma checkout_precondition_order_witness :
  checkout addressIsSet bob emptyDb =
    (inl (ApiError NOT_FOUND (Some "User does not have a cart")), bob, emptyDb)
  /\ checkout addressIsSet bob (dbWith "bob@example.com" []) =
       (inl (ApiError BAD_REQUEST (Some "No products in cart")), bob,
        dbWith "bob@example.com" [])
  /\ checkout addressIsSet bob (dbWith "bob@example.com" [penLine 2]) =
       (inl (ApiError BAD_REQUEST (Some "Insufficient Balance")), bob,
        dbWith "bob@example.com" [penLine 2])
  /\ checkout addressIsSet bob (dbWith "bob@example.com" [penLine 1]) =
       (inl (ApiError BAD_REQUEST (Some "No address set")), bob,
        dbWith "bob@example.com" [penLine 1]).
Proof.
  split; [|split; [|split]].
  - apply (checkout_precondition_order addressIsSet bob emptyDb). reflexivity.
  - apply (checkout_precondition_order addressIsSet bob (dbWith "bob@example.com" [])).
    reflexivity.
  - refine (proj1 (proj2 (proj2 (checkout_precondition_order addressIsSet bob
              (dbWith "bob@example.com" [penLine 2])))) [penLine 2] _ _ _).
    + reflexivity.
    + discriminate.
    + reflexivity.
  - refine (proj2 (proj2 (proj2 (checkout_precondition_order addressIsSet bob
              (dbWith "bob@example.com" [penLine 1])))) [penLine 1] _ _ _ _).
    + reflexivity.
    + discriminate.
    + reflexivity.
    + reflexivity.
Defined.

Lemma checkout_total_defined_witness :
  exists total,
    reduce PrimFloat.add
      (List.map (fun item => cost (product item) * quantity item)
         [penLine 2; mugLine 3]) = Some total.
Proof.
  refine (proj1 (proj2 (checkout_total_defined addressIsSet alice
            (dbWith "alice@example.com" [penLine 2; mugLine 3]))) _ _ _).
  - reflexivity.
  - reflexivity.
Defined.

(** ** The cart invariants *)

Lemma allCarts_insert (P : list CartItem -> Prop) (e : string)
    (cartItems : list CartItem) (db : Db) :
  allCarts P db -> P cartItems -> allCarts P (set_carts (insert e cartItems) db).
Proof.
  intros Hall HP owner l. simpl. rewrite lookup_insert.
  destruct (decide (e = owner)) as [_|_].
  - intros [= <-]. exact HP.
  - apply Hall.
Qed.

Lemma allCarts_set_users (P : list CartItem -> Prop)
    (f : gmap string User.t -> gmap string User.t) (db : Db) :
  allCarts P db -> allCarts P (set_users f db).
Proof. intros Hall owner l. simpl. apply Hall. Qed.

Lemma uniqueIds_push (cartItems : list CartItem) (p : Product) (q : float) :
  uniqueIds cartItems ->
  ~ InCart (toString (_id p)) cartItems ->
  uniqueIds (cartItems ++ [ {| product := p; quantity := q |} ]).
Proof.
  unfold uniqueIds. intros Hnd Hfresh. rewrite List.map_app. simpl.
  apply NoDup_app. split; [assumption|]. split; [|apply NoDup_singleton].
  intros x Hx Hx'. apply list_elem_of_singleton in Hx'. subst x.
  apply list_elem_of_In, in_map_iff in Hx as (item & Hid & Hin).
  apply Hfresh. exists item. split; [assumption|]. now rewrite Hid.
Qed.

Lemma uniqueIds_keepOthers (productId : string) (cartItems : list CartItem) :
  uniqueIds cartItems -> uniqueIds (keepOthers productId cartItems).
Proof.
  unfold uniqueIds, keepOthers. induction cartItems as [|item rest IH]; simpl; intros Hnd.
  - assumption.
  - apply NoDup_cons in Hnd as [Hfresh Hnd].
    destruct (negb (String.eqb (toString (_id (product item))) productId)); simpl.
    + apply NoDup_cons. split; [|now apply IH].
      intros Hin. apply Hfresh.
      apply list_elem_of_In, in_map_iff in Hin as (x & Hid & Hx).
      apply List.filter_In in Hx as [Hx _].
      apply list_elem_of_In, in_map_iff. now exists x.
    + now apply IH.
Qed.

Lemma positiveQuantities_keepOthers (productId : string) (cartItems : list CartItem) :
  positiveQuantities cartItems -> positiveQuantities (keepOthers productId cartItems).
Proof.
  unfold positiveQuantities, keepOthers. rewrite !List.Forall_forall.
  intros H item Hin. apply List.filter_In in Hin as [Hin _]. now apply H.
Qed.

Lemma positiveQuantities_updateQuantity (cartItems : list CartItem)
    (productId : string) (q : float) :
  (1 <=? q) = true -> positiveQuantities cartItems ->
  positiveQuantities (updateQuantity cartItems productId q).
Proof.
  unfold positiveQuantities. intros Hq. induction 1 as [|item rest Hitem Hrest IH]; simpl.
  - constructor.
  - destruct (String.eqb (toString (_id (product item))) productId).
    + constructor; [exact Hq | exact Hrest].
    + constructor; [exact Hitem | exact IH].
Qed.

Lemma positiveQuantities_push (cartItems : list CartItem) (p : Product) (q : float) :
  (1 <=? q) = true -> positiveQuantities cartItems ->
  positiveQuantities (cartItems ++ [ {| product := p; quantity := q |} ]).
Proof.
  unfold positiveQuantities. intros Hq H. apply List.Forall_app. split; [exact H|].
  constructor; [exact Hq | constructor].
Qed.

(** [addProductToCart] keeps a property of all carts that holds of the
    empty cart and is kept by the push of the new line. *)
Lemma addProductToCart_allCarts (P : list CartItem -> Prop)
    (user : User.t) (productId : string) (quantity : float) (db : Db) :
  P [] ->
  (forall cartItems p, P cartItems -> ~ InCart productId cartItems ->
     toString (_id p) = productId ->
     P (cartItems ++ [ {| product := p; quantity := quantity |} ])) ->
  allCarts P db ->
  allCarts P (snd (addProductToCart user productId quantity db)).
Proof.
  intros Hnil Hpush Hall.
  destruct (itemsOf user db) as [cartItems|] eqn:E.
  - rewrite (addProductToCart_existing_cart _ _ _ _ _ E).
    destruct (checkProductInCart cartItems productId) eqn:Hc; [exact Hall|].
    destruct (findProduct (products db) productId) as [p|] eqn:Hp; [|exact Hall].
    simpl. apply allCarts_insert; [exact Hall|].
    apply Hpush.
    + exact (Hall _ _ E).
    + intros Hin. apply checkProductInCart_InCart in Hin. congruence.
    + now apply findProduct_Some in Hp.
  - rewrite (addProductToCart_no_cart _ _ _ _ E).
    destruct (cartCreateOk db); [|exact Hall].
    destruct (findProduct (products db) productId) as [p|] eqn:Hp; simpl.
    + apply allCarts_insert; [exact Hall|].
      apply (Hpush [] p Hnil).
      * intros (x & [] & _).
      * now apply findProduct_Some in Hp.
    + now apply allCarts_insert.
Qed.

Lemma updateProductInCart_allCarts (P : list CartItem -> Prop)
    (user : User.t) (productId : string) (quantity : float) (db : Db) :
  (forall cartItems, P cartItems -> P (updateQuantity cartItems productId quantity)) ->
  allCarts P db ->
  allCarts P (snd (updateProductInCart user productId quantity db)).
Proof.
  intros Hupd Hall.
  destruct (itemsOf user db) as [cartItems|] eqn:E.
  - rewrite (updateProductInCart_run _ _ _ _ _ E).
    destruct (findProduct (products db) productId); [|exact Hall].
    destruct (checkProductInCart cartItems productId); [|exact Hall].
    simpl. apply allCarts_insert; [exact Hall|]. apply Hupd. exact (Hall _ _ E).
  - unfold itemsOf in E. unfold updateProductInCart, bind, Cart_findOne.
    rewrite E. exact Hall.
Qed.

Lemma deleteProductFromCart_allCarts (P : list CartItem -> Prop)
    (user : User.t) (productId : string) (db : Db) :
  (forall cartItems, P cartItems -> P (keepOthers productId cartItems)) ->
  allCarts P db ->
  allCarts P (snd (deleteProductFromCart user productId db)).
Proof.
  intros Hdel Hall.
  destruct (itemsOf user db) as [cartItems|] eqn:E.
  - rewrite (deleteProductFromCart_run _ _ _ _ E).
    destruct (checkProductInCart cartItems productId); [|exact Hall].
    simpl. apply allCarts_insert; [exact Hall|]. apply Hdel. exact (Hall _ _ E).
  - unfold itemsOf in E. unfold deleteProductFromCart, bind, Cart_findOne.
    rewrite E. exact Hall.
Qed.

Lemma getCartByUser_store (user : User.t) (db : Db) : snd (getCartByUser user db) = db.
Proof.
  unfold getCartByUser, bind, Cart_findOne.
  destruct (carts db !! User.email user); reflexivity.
Qed.

Lemma checkout_allCarts (P : list CartItem -> Prop)
    (hasSetNonDefaultAddress : User.t -> bool) (user : User.t) (db : Db) :
  P [] -> allCarts P db ->
  allCarts P (snd (checkout hasSetNonDefaultAddress user db)).
Proof.
  intros Hnil Hall. rewrite checkout_run.
  destruct (itemsOf user db) as [[|item rest]|]; try exact Hall.
  destruct (User.walletMoney user <? cartTotal (item :: rest)); [exact Hall|].
  destruct (hasSetNonDefaultAddress user); [|exact Hall].
  simpl. apply allCarts_set_users. now apply allCarts_insert.
Qed.

(** C9, as amended.  Every operation of the service keeps the product
    ids of the line items pairwise distinct within each cart.  Deletion
    and checkout (and the read-only fetch) keep every quantity at least
    1; adding and updating keep it when the quantity they are given is
    at least 1. *)
Theorem cart_invariants_preserved
    (hasSetNonDefaultAddress : User.t -> bool)
    (user : User.t) (productId : string) (quantity : float) (db : Db) :
  (allCarts uniqueIds db ->
     allCarts uniqueIds (snd (getCartByUser user db))
     /\ allCarts uniqueIds (snd (addProductToCart user productId quantity db))
     /\ allCarts uniqueIds (snd (updateProductInCart user productId quantity db))
     /\ allCarts uniqueIds (snd (deleteProductFromCart user productId db))
     /\ allCarts uniqueIds (snd (checkout hasSetNonDefaultAddress user db)))
  /\ (allCarts positiveQuantities db ->
        allCarts positiveQuantities (snd (getCartByUser user db))
        /\ ((1 <=? quantity) = true ->
              allCarts positiveQuantities
                (snd (addProductToCart user productId quantity db)))
        /\ ((1 <=? quantity) = true ->
              allCarts positiveQuantities
                (snd (updateProductInCart user productId quantity db)))
        /\ allCarts positiveQuantities (snd (deleteProductFromCart user productId db))
        /\ allCarts positiveQuantities (snd (checkout hasSetNonDefaultAddress user db))).
Proof.
  split; intros Hall; repeat split.
  - now rewrite getCartByUser_store.
  - apply addProductToCart_allCarts; [constructor| |exact Hall].
    intros cartItems p Hu Hfresh Hid. apply uniqueIds_push; [exact Hu|]. now rewrite Hid.
  - apply updateProductInCart_allCarts; [|exact Hall].
    intros cartItems Hu. unfold uniqueIds. now rewrite updateQuantity_ids.
  - apply deleteProductFromCart_allCarts; [|exact Hall].
    intros cartItems. apply uniqueIds_keepOthers.
  - apply checkout_allCarts; [constructor | exact Hall].
  - now rewrite getCartByUser_store.
  - intros Hq. apply addProductToCart_allCarts; [constructor| |exact Hall].
    intros cartItems p Hp _ _. now apply positiveQuantities_push.
  - intros Hq. apply updateProductInCart_allCarts; [|exact Hall].
    intros cartItems. now apply positiveQuantities_updateQuantity.
  - apply deleteProductFromCart_allCarts; [|exact Hall].
    intros cartItems. apply positiveQuantities_keepOthers.
  - apply checkout_allCarts; [constructor | exact Hall].
Qed.

Lemma allCarts_emptyDb (P : list CartItem -> Prop) : allCarts P emptyDb.
Proof. intros owner l. simpl. rewrite lookup_empty. discriminate. Qed.

Lemma cart_invariants_preserved_witness :
  allCarts uniqueIds
    (snd (addProductToCart alice "5f71c1ca04c69a5874e9fd46" 2
            (dbWith "alice@example.com" [penLine 1])))
  /\ allCarts positiveQuantities
       (snd (addProductToCart alice "5f71c1ca04c69a5874e9fd46" 2
               (dbWith "alice@example.com" [penLine 1])))
  /\ allCarts positiveQuantities
       (snd (updateProductInCart alice "5f71c1ca04c69a5874e9fd45" 4
               (dbWith "alice@example.com" [penLine 1]))).
Proof.
  assert (Hu : allCarts uniqueIds (dbWith "alice@example.com" [penLine 1])).
  { apply allCarts_insert; [apply allCarts_emptyDb|].
    apply NoDup_singleton. }
  assert (Hq : allCarts positiveQuantities (dbWith "alice@example.com" [penLine 1])).
  { apply allCarts_insert; [apply allCarts_emptyDb|].
    constructor; [reflexivity | constructor]. }
  split; [|split].
  - apply (cart_invariants_preserved addressIsSet alice "5f71c1ca04c69a5874e9fd46" 2
             (dbWith "alice@example.com" [penLine 1])). exact Hu.
  - refine (proj1 (proj2 (proj2 (cart_invariants_preserved addressIsSet alice
              "5f71c1ca04c69a5874e9fd46" 2 (dbWith "alice@example.com" [penLine 1])) Hq)) _).
    reflexivity.
  - refine (proj1 (proj2 (proj2 (proj2 (cart_invariants_preserved addressIsSet alice
              "5f71c1ca04c69a5874e9fd45" 4 (dbWith "alice@example.com" [penLine 1])) Hq))) _).
    reflexivity.
Defined.

(** C9, counterexample.  The store holds no cart, so both invariants
    hold; adding a catalog product with quantity 0 succeeds and leaves
    a cart whose only line has quantity 0. *)
Lemma addProductToCart_zero_quantity :
  allCarts uniqueIds emptyDb
  /\ allCarts positiveQuantities emptyDb
  /\ addProductToCart alice "5f71c1ca04c69a5874e9fd45" 0 emptyDb =
       (inr {| Cart.email := "alice@example.com"; Cart.cartItems := [penLine 0] |},
        dbWith "alice@example.com" [penLine 0])
  /\ ~ allCarts positiveQuantities
         (snd (addProductToCart alice "5f71c1ca04c69a5874e9fd45" 0 emptyDb)).
Proof.
  split; [apply allCarts_emptyDb|]. split; [apply allCarts_emptyDb|].
  split; [reflexivity|].
  intros Hall. specialize (Hall "alice@example.com" [penLine 0] eq_refl).
  apply List.Forall_inv in Hall. discriminate Hall.
Qed.

(** * Further properties of the service *)

(** ** Shapes of the results *)

Lemma getCartByUser_run (user : User.t) (db : Db) :
  getCartByUser user db =
    match itemsOf user db with
    | None => (inl (ApiError NOT_FOUND (Some "User does not have a cart")), db)
    | Some cartItems =>
        (inr {| Cart.email := User.email user; Cart.cartItems := cartItems |}, db)
    end.
Proof.
  unfold getCartByUser, bind, Cart_findOne, itemsOf.
  destruct (carts db !! User.email user); reflexivity.
Qed.

Lemma itemsOf_saved (user : User.t) (cartItems : list CartItem) (db : Db) :
  itemsOf user (set_carts (insert (User.email user) cartItems) db) = Some cartItems.
Proof. unfold itemsOf. simpl. apply lookup_insert_eq. Qed.

Lemma updateProductInCart_no_cart
    (user : User.t) (productId : string) (quantity : float) (db : Db) :
  itemsOf user db = None ->
  updateProductInCart user productId quantity db =
    (inl (ApiError BAD_REQUEST
       (Some "User does not have a cart. Use POST to create cart and add a product")),
     db).
Proof.
  unfold itemsOf. intros E. unfold updateProductInCart, bind, Cart_findOne. now rewrite E.
Qed.

Lemma deleteProductFromCart_no_cart (user : User.t) (productId : string) (db : Db) :
  itemsOf user db = None ->
  deleteProductFromCart user productId db =
    (inl (ApiError BAD_REQUEST (Some "User does not have a cart")), db).
Proof.
  unfold itemsOf. intros E. unfold deleteProductFromCart, bind, Cart_findOne. now rewrite E.
Qed.

(** A normal return of [addProductToCart] tells how it was reached. *)
Lemma addProductToCart_inr
    (user : User.t) (productId : string) (quantity : float) (db db' : Db) (c : Cart.t) :
  addProductToCart user productId quantity db = (inr c, db') ->
  exists p,
    findProduct (products db) productId = Some p
    /\ ~ InCart productId (default [] (itemsOf user db))
    /\ (is_Some (itemsOf user db) \/ cartCreateOk db = true)
    /\ c = {| Cart.email := User.email user;
              Cart.cartItems :=
                default [] (itemsOf user db) ++ [ {| product := p; quantity := quantity |} ] |}
    /\ db' = set_carts
               (insert (User.email user)
                  (default [] (itemsOf user db) ++ [ {| product := p; quantity := quantity |} ]))
               db.
Proof.
  destruct (itemsOf user db) as [cartItems|] eqn:E; simpl.
  - rewrite (addProductToCart_existing_cart _ _ _ _ _ E).
    destruct (checkProductInCart cartItems productId) eqn:Hc; [discriminate|].
    destruct (findProduct (products db) productId) as [p|]; [|discriminate].
    simpl. intros [= <- <-]. exists p. repeat split; eauto.
    intros Hin. apply checkProductInCart_InCart in Hin. congruence.
  - rewrite (addProductToCart_no_cart _ _ _ _ E).
    destruct (cartCreateOk db); [|discriminate].
    destruct (findProduct (products db) productId) as [p|]; [|discriminate].
    simpl. intros [= <- <-]. exists p. repeat split; eauto.
    intros (x & [] & _).
Qed.

Lemma updateProductInCart_inr
    (user : User.t) (productId : string) (quantity : float) (db db' : Db) (c : Cart.t) :
  updateProductInCart user productId quantity db = (inr c, db') ->
  exists cartItems,
    itemsOf user db = Some cartItems
    /\ InCatalog productId db
    /\ InCart productId cartItems
    /\ c = {| Cart.email := User.email user;
              Cart.cartItems := updateQuantity cartItems productId quantity |}
    /\ db' = set_carts
               (insert (User.email user) (updateQuantity cartItems productId quantity)) db.
Proof.
  destruct (itemsOf user db) as [cartItems|] eqn:E.
  - rewrite (updateProductInCart_run _ _ _ _ _ E).
    destruct (findProduct (products db) productId) as [p|] eqn:Hp; [|discriminate].
    destruct (checkProductInCart cartItems productId) eqn:Hc; [|discriminate].
    simpl. intros [= <- <-]. exists cartItems. repeat split.
    + apply findProduct_Some in Hp as [Hin Hid]. now exists p.
    + now apply checkProductInCart_InCart.
  - rewrite (updateProductInCart_no_cart _ _ _ _ E). discriminate.
Qed.

Lemma deleteProductFromCart_inr
    (user : User.t) (productId : string) (db db' : Db) (c : Cart.t) :
  deleteProductFromCart user productId db = (inr c, db') ->
  exists cartItems,
    itemsOf user db = Some cartItems
    /\ InCart productId cartItems
    /\ c = {| Cart.email := User.email user;
              Cart.cartItems := keepOthers productId cartItems |}
    /\ db' = set_carts (insert (User.email user) (keepOthers productId cartItems)) db.
Proof.
  destruct (itemsOf user db) as [cartItems|] eqn:E.
  - rewrite (deleteProductFromCart_run _ _ _ _ E).
    destruct (checkProductInCart cartItems productId) eqn:Hc; [|discriminate].
    intros [= <- <-]. exists cartItems. repeat split.
    now apply checkProductInCart_InCart.
  - rewrite (deleteProductFromCart_no_cart _ _ _ E). discriminate.
Qed.

(** A failure of update or delete leaves the store as it was. *)
Lemma updateProductInCart_inl
    (user : User.t) (productId : string) (quantity : float) (db db' : Db) (e : Error) :
  updateProductInCart user productId quantity db = (inl e, db') -> db' = db.
Proof.
  destruct (itemsOf user db) as [cartItems|] eqn:E.
  - rewrite (updateProductInCart_run _ _ _ _ _ E).
    destruct (findProduct (products db) productId); [|congruence].
    destruct (checkProductInCart cartItems productId); simpl; congruence.
  - rewrite (updateProductInCart_no_cart _ _ _ _ E). congruence.
Qed.

(** ** getCartByUser *)

(** X1.  [getCartByUser] never changes the store; it fails with the 404
    error "User does not have a cart" exactly when no cart is stored
    under the user's email, and otherwise returns the stored line items
    under that email. *)
Theorem getCartByUser_spec (user : User.t) (db : Db) :
  snd (getCartByUser user db) = db
  /\ (fst (getCartByUser user db) =
        inl (ApiError NOT_FOUND (Some "User does not have a cart"))
      <-> carts db !! User.email user = None)
  /\ (forall c, fst (getCartByUser user db) = inr c <->
        Cart.email c = User.email user
        /\ carts db !! User.email user = Some (Cart.cartItems c)).
Proof.
  rewrite getCartByUser_run. unfold itemsOf.
  destruct (carts db !! User.email user) as [cartItems|]; simpl.
  - split; [reflexivity|]. split; [split; discriminate|].
    intros [email items]; simpl. split.
    + intros [= <- <-]. auto.
    + intros [-> [= <-]]. reflexivity.
  - split; [reflexivity|]. split; [split; reflexivity|].
    intros c. split; [discriminate | intros [_ H]; discriminate H].
Qed.

(** X5.  A cart returned by a successful add, update or delete is the
    cart as stored: [getCartByUser] on the resulting store returns the
    same cart. *)
Theorem getCartByUser_after_mutation
    (user : User.t) (productId : string) (quantity : float) (db db' : Db) (c : Cart.t) :
  addProductToCart user productId quantity db = (inr c, db')
  \/ updateProductInCart user productId quantity db = (inr c, db')
  \/ deleteProductFromCart user productId db = (inr c, db') ->
  getCartByUser user db' = (inr c, db').
Proof.
  intros [H|[H|H]]; rewrite getCartByUser_run.
  - apply addProductToCart_inr in H as (p & _ & _ & _ & -> & ->).
    now rewrite itemsOf_saved.
  - apply updateProductInCart_inr in H as (l & _ & _ & _ & -> & ->).
    now rewrite itemsOf_saved.
  - apply deleteProductFromCart_inr in H as (l & _ & _ & -> & ->).
    now rewrite itemsOf_saved.
Qed.

Lemma getCartByUser_after_mutation_witness :
  getCartByUser alice (dbWith "alice@example.com" [penLine 2]) =
    (inr {| Cart.email := "alice@example.com"; Cart.cartItems := [penLine 2] |},
     dbWith "alice@example.com" [penLine 2]).
Proof.
  apply (getCartByUser_after_mutation alice "5f71c1ca04c69a5874e9fd45" 2 emptyDb).
  left. reflexivity.
Defined.

(** ** updateProductInCart: failures *)

(** X2.  [updateProductInCart] fails with the 400 error "User does not
    have a cart..." when the user has no cart (it never creates one);
    with a cart, a product id that is not in the catalog gives "Product
    doesn't exist in database" whether or not the cart holds a line for
    it; a catalog id without a line in the cart gives "Product not in
    cart".  Every failure leaves the store as it was. *)
Theorem updateProductInCart_failures
    (user : User.t) (productId : string) (quantity : float) (db : Db) :
  (itemsOf user db = None ->
     updateProductInCart user productId quantity db =
       (inl (ApiError BAD_REQUEST
          (Some "User does not have a cart. Use POST to create cart and add a product")),
        db))
  /\ (forall cartItems, itemsOf user db = Some cartItems ->
        ~ InCatalog productId db ->
        updateProductInCart user productId quantity db =
          (inl (ApiError BAD_REQUEST (Some "Product doesn't exist in database")), db))
  /\ (forall cartItems, itemsOf user db = Some cartItems ->
        InCatalog productId db -> ~ InCart productId cartItems ->
        updateProductInCart user productId quantity db =
          (inl (ApiError BAD_REQUEST (Some "Product not in cart")), db))
  /\ (forall e db', updateProductInCart user productId quantity db = (inl e, db') ->
        db' = db).
Proof.
  split; [apply updateProductInCart_no_cart|]. split; [|split].
  - intros cartItems E Hcat. rewrite (updateProductInCart_run _ _ _ _ _ E).
    now rewrite (findProduct_not_InCatalog _ _ Hcat).
  - intros cartItems E Hcat Hn. rewrite (updateProductInCart_run _ _ _ _ _ E).
    destruct (findProduct_InCatalog _ _ Hcat) as (p & ->).
    now rewrite (checkProductInCart_false _ _ Hn).
  - intros e db'. apply updateProductInCart_inl.
Qed.

Lemma updateProductInCart_failures_witness :
  updateProductInCart alice "5f71c1ca04c69a5874e9fd45" 3 emptyDb =
    (inl (ApiError BAD_REQUEST
       (Some "User does not have a cart. Use POST to create cart and add a product")),
     emptyDb)
  /\ updateProductInCart alice "000000000000000000000000" 3
       (dbWith "alice@example.com" [penLine 1]) =
       (inl (ApiError BAD_REQUEST (Some "Product doesn't exist in database")),
        dbWith "alice@example.com" [penLine 1])
  /\ updateProductInCart alice "5f71c1ca04c69a5874e9fd46" 3
       (dbWith "alice@example.com" [penLine 1]) =
       (inl (ApiError BAD_REQUEST (Some "Product not in cart")),
        dbWith "alice@example.com" [penLine 1]).
Proof.
  split; [|split].
  - apply (updateProductInCart_failures alice "5f71c1ca04c69a5874e9fd45" 3 emptyDb).
    reflexivity.
  - refine (proj1 (proj2 (updateProductInCart_failures alice "000000000000000000000000" 3
              (dbWith "alice@example.com" [penLine 1]))) [penLine 1] _ _).
    + reflexivity.
    + intros (p & Hin & Hid). simpl in Hin.
      destruct Hin as [<-|[<-|[]]]; discriminate Hid.
  - refine (proj1 (proj2 (proj2 (updateProductInCart_failures alice
              "5f71c1ca04c69a5874e9fd46" 3 (dbWith "alice@example.com" [penLine 1]))))
              [penLine 1] _ _ _).
    + reflexivity.
    + exists mug. split; [right; left|]; reflexivity.
    + intros (item & [<-|[]] & Hid). discriminate Hid.
Defined.

(** X3.  [updateProductInCart] returns normally only for a user with a
    cart, a product id of the catalog and a line for it in the cart;
    the cart it returns has the same products in the same order as
    before, so a price in a line is never refreshed from the
    catalog. *)
Theorem updateProductInCart_success_only
    (user : User.t) (productId : string) (quantity : float) (db db' : Db) (c : Cart.t) :
  updateProductInCart user productId quantity db = (inr c, db') ->
  exists cartItems,
    itemsOf user db = Some cartItems
    /\ InCatalog productId db
    /\ InCart productId cartItems
    /\ List.map product (Cart.cartItems c) = List.map product cartItems
    /\ length (Cart.cartItems c) = length cartItems.
Proof.
  intros H. apply updateProductInCart_inr in H as (l & E & Hcat & Hin & -> & _).
  exists l. repeat split; try assumption; simpl.
  - clear. induction l as [|item rest IH]; simpl; [reflexivity|].
    destruct (String.eqb (toString (_id (product item))) productId); simpl; congruence.
  - clear. induction l as [|item rest IH]; simpl; [reflexivity|].
    destruct (String.eqb (toString (_id (product item))) productId); simpl; congruence.
Qed.

Lemma updateProductInCart_success_only_witness :
  exists cartItems,
    itemsOf alice (dbWith "alice@example.com" [penLine 1; mugLine 2]) = Some cartItems
    /\ List.map product [penLine 1; mugLine 5] = List.map product cartItems.
Proof.
  destruct (updateProductInCart_success_only alice "5f71c1ca04c69a5874e9fd46" 5
              (dbWith "alice@example.com" [penLine 1; mugLine 2])
              (dbWith "alice@example.com" [penLine 1; mugLine 5])
              {| Cart.email := "alice@example.com";
                 Cart.cartItems := [penLine 1; mugLine 5] |})
    as (l & E & _ & _ & Hmap & _).
  - reflexivity.
  - exists l. split; assumption.
Defined.

(** ** addProductToCart: compositions *)

(** X4.  [addProductToCart] returns normally only when the product id
    is in the catalog and no line of the user's cart has it; the cart
    it returns is then one line longer than the user's previous cart
    (empty when there was none), and the new, last line has the given
    quantity and the product id asked for. *)
Theorem addProductToCart_success_only
    (user : User.t) (productId : string) (quantity : float) (db db' : Db) (c : Cart.t) :
  addProductToCart user productId quantity db = (inr c, db') ->
  InCatalog productId db
  /\ ~ InCart productId (default [] (itemsOf user db))
  /\ length (Cart.cartItems c) = S (length (default [] (itemsOf user db)))
  /\ exists p,
       toString (_id p) = productId
       /\ In p (products db)
       /\ Cart.cartItems c =
            default [] (itemsOf user db) ++ [ {| product := p; quantity := quantity |} ].
Proof.
  intros H. apply addProductToCart_inr in H as (p & Hp & Hn & _ & -> & _).
  apply findProduct_Some in Hp as [Hin Hid]. simpl.
  split; [now exists p|]. split; [assumption|]. split.
  - rewrite length_app. simpl. lia.
  - exists p. auto.
Qed.

Lemma addProductToCart_success_only_witness :
  InCatalog "5f71c1ca04c69a5874e9fd46" (dbWith "alice@example.com" [penLine 1])
  /\ ~ InCart "5f71c1ca04c69a5874e9fd46"
         (default [] (itemsOf alice (dbWith "alice@example.com" [penLine 1]))).
Proof.
  destruct (addProductToCart_success_only alice "5f71c1ca04c69a5874e9fd46" 3
              (dbWith "alice@example.com" [penLine 1])
              (dbWith "alice@example.com" [penLine 1; mugLine 3])
              {| Cart.email := "alice@example.com";
                 Cart.cartItems := [penLine 1; mugLine 3] |})
    as (Hcat & Hn & _).
  - reflexivity.
  - split; assumption.
Defined.

Lemma addProductToCart_ok
    (user : User.t) (productId : string) (quantity : float) (db : Db) (p : Product) :
  findProduct (products db) productId = Some p ->
  ~ InCart productId (default [] (itemsOf user db)) ->
  is_Some (itemsOf user db) \/ cartCreateOk db = true ->
  addProductToCart user productId quantity db =
    (inr {| Cart.email := User.email user;
            Cart.cartItems :=
              default [] (itemsOf user db) ++ [ {| product := p; quantity := quantity |} ] |},
     set_carts
       (insert (User.email user)
          (default [] (itemsOf user db) ++ [ {| product := p; quantity := quantity |} ]))
       db).
Proof.
  intros Hp Hn Hcart. destruct (itemsOf user db) as [cartItems|] eqn:E; simpl in *.
  - rewrite (addProductToCart_existing_cart _ _ _ _ _ E).
    now rewrite (checkProductInCart_false _ _ Hn), Hp.
  - rewrite (addProductToCart_no_cart _ _ _ _ E).
    destruct Hcart as [[x Hx]| ->]; [discriminate|]. now rewrite Hp.
Qed.

Lemma InCart_last (cartItems : list CartItem) (p : Product) (q : float) :
  InCart (toString (_id p)) (cartItems ++ [ {| product := p; quantity := q |} ]).
Proof.
  exists {| product := p; quantity := q |}. split; [|reflexivity].
  apply List.in_or_app. right. now left.
Qed.

Lemma updateQuantity_last (cartItems : list CartItem) (p : Product) (q q' : float) :
  ~ InCart (toString (_id p)) cartItems ->
  updateQuantity (cartItems ++ [ {| product := p; quantity := q |} ]) (toString (_id p)) q' =
  cartItems ++ [ {| product := p; quantity := q' |} ].
Proof.
  induction cartItems as [|item rest IH]; intros Hn; simpl.
  - now rewrite String.eqb_refl.
  - destruct (String.eqb_spec (toString (_id (product item))) (toString (_id p)))
      as [Heq|Hne].
    + destruct Hn. exists item. split; [now left | assumption].
    + rewrite IH; [reflexivity|]. intros (x & Hx & Hid). apply Hn.
      exists x. split; [now right | assumption].
Qed.

Lemma keepOthers_last (cartItems : list CartItem) (p : Product) (q : float) :
  ~ InCart (toString (_id p)) cartItems ->
  keepOthers (toString (_id p)) (cartItems ++ [ {| product := p; quantity := q |} ]) =
  cartItems.
Proof.
  intros Hn. unfold keepOthers. rewrite List.filter_app. simpl.
  rewrite String.eqb_refl. simpl. rewrite List.app_nil_r. now apply keepOthers_id.
Qed.

Lemma not_InCart_keepOthers (productId : string) (cartItems : list CartItem) :
  ~ InCart productId (keepOthers productId cartItems).
Proof.
  intros (item & Hin & Hid). unfold keepOthers in Hin.
  apply List.filter_In in Hin as [_ Hne].
  apply Bool.negb_true_iff, String.eqb_neq in Hne. contradiction.
Qed.

(** X6.  After a successful [addProductToCart], a second add of the
    same product id, with any quantity, fails with the 400 error
    "Product already in cart..." and leaves the store as the first add
    left it. *)
Theorem addProductToCart_twice
    (user : User.t) (productId : string) (q q' : float) (db db' : Db) (c : Cart.t) :
  addProductToCart user productId q db = (inr c, db') ->
  addProductToCart user productId q' db' =
    (inl (ApiError BAD_REQUEST
       (Some "Product already in cart. Use the cart sidebar to update or remove product from cart")),
     db').
Proof.
  intros H. apply addProductToCart_inr in H as (p & Hp & Hn & _ & -> & ->).
  apply findProduct_Some in Hp as [_ <-].
  rewrite (addProductToCart_existing_cart _ _ _ _ _ (itemsOf_saved _ _ _)).
  now rewrite (proj2 (checkProductInCart_InCart _ _) (InCart_last _ _ _)).
Qed.

Lemma addProductToCart_twice_witness :
  addProductToCart alice "5f71c1ca04c69a5874e9fd45" 7
    (dbWith "alice@example.com" [penLine 2]) =
    (inl (ApiError BAD_REQUEST
       (Some "Product already in cart. Use the cart sidebar to update or remove product from cart")),
     dbWith "alice@example.com" [penLine 2]).
Proof.
  apply (addProductToCart_twice alice "5f71c1ca04c69a5874e9fd45" 2 7 emptyDb
           (dbWith "alice@example.com" [penLine 2])
           {| Cart.email := "alice@example.com"; Cart.cartItems := [penLine 2] |}).
  reflexivity.
Defined.

(** X7.  Updating the quantity of a product right after a successful
    add of it gives the same cart and the same store as adding it with
    the new quantity in the first place. *)
Theorem updateProductInCart_after_add
    (user : User.t) (productId : string) (q q' : float) (db db' : Db) (c : Cart.t) :
  addProductToCart user productId q db = (inr c, db') ->
  updateProductInCart user productId q' db' = addProductToCart user productId q' db.
Proof.
  intros H. apply addProductToCart_inr in H as (p & Hp & Hn & Hcart & -> & ->).
  rewrite (addProductToCart_ok _ _ q' _ _ Hp Hn Hcart).
  rewrite (updateProductInCart_run _ _ _ _ _ (itemsOf_saved _ _ _)). simpl.
  rewrite Hp. apply findProduct_Some in Hp as [_ <-].
  rewrite (proj2 (checkProductInCart_InCart _ _) (InCart_last _ _ _)).
  rewrite (updateQuantity_last _ _ _ _ Hn). simpl.
  now rewrite set_carts_insert_insert.
Qed.

Lemma updateProductInCart_after_add_witness :
  updateProductInCart alice "5f71c1ca04c69a5874e9fd45" 5
    (dbWith "alice@example.com" [penLine 2]) =
  addProductToCart alice "5f71c1ca04c69a5874e9fd45" 5 emptyDb.
Proof.
  apply (updateProductInCart_after_add alice "5f71c1ca04c69a5874e9fd45" 2 5 emptyDb
           (dbWith "alice@example.com" [penLine 2])
           {| Cart.email := "alice@example.com"; Cart.cartItems := [penLine 2] |}).
  reflexivity.
Defined.

(** X8.  Deleting a product right after a successful add of it gives
    back the line items the user had before the add (none for a user
    without a cart); when the user had a cart the whole store is as it
    was before the add. *)
Theorem deleteProductFromCart_after_add
    (user : User.t) (productId : string) (q : float) (db db' : Db) (c : Cart.t) :
  addProductToCart user productId q db = (inr c, db') ->
  deleteProductFromCart user productId db' =
    (inr {| Cart.email := User.email user;
            Cart.cartItems := default [] (itemsOf user db) |},
     set_carts (insert (User.email user) (default [] (itemsOf user db))) db)
  /\ (is_Some (itemsOf user db) -> snd (deleteProductFromCart user productId db') = db).
Proof.
  intros H. apply addProductToCart_inr in H as (p & Hp & Hn & _ & -> & ->).
  apply findProduct_Some in Hp as [_ <-].
  assert (Hrun : deleteProductFromCart user (toString (_id p))
            (set_carts
               (insert (User.email user)
                  (default [] (itemsOf user db) ++ [ {| product := p; quantity := q |} ]))
               db) =
          (inr {| Cart.email := User.email user;
                  Cart.cartItems := default [] (itemsOf user db) |},
           set_carts (insert (User.email user) (default [] (itemsOf user db))) db)).
  { rewrite (deleteProductFromCart_run _ _ _ _ (itemsOf_saved _ _ _)).
    rewrite (proj2 (checkProductInCart_InCart _ _) (InCart_last _ _ _)).
    rewrite (keepOthers_last _ _ _ Hn). now rewrite set_carts_insert_insert. }
  split; [exact Hrun|].
  intros [l Hl]. rewrite Hrun, Hl. simpl. now apply set_carts_insert_id.
Qed.

Lemma deleteProductFromCart_after_add_witness :
  snd (deleteProductFromCart alice "5f71c1ca04c69a5874e9fd46"
         (dbWith "alice@example.com" [penLine 1; mugLine 3])) =
  dbWith "alice@example.com" [penLine 1].
Proof.
  refine (proj2 (deleteProductFromCart_after_add alice "5f71c1ca04c69a5874e9fd46" 3
            (dbWith "alice@example.com" [penLine 1])
            (dbWith "alice@example.com" [penLine 1; mugLine 3])
            {| Cart.email := "alice@example.com";
               Cart.cartItems := [penLine 1; mugLine 3] |} _) _).
  - reflexivity.
  - exists [penLine 1]. reflexivity.
Defined.

(** X9.  After a successful [deleteProductFromCart] no line of the
    returned cart has the product id, and a second delete of the same
    id fails with the 400 error "Product not in cart", leaving the
    store as the first delete left it. *)
Theorem deleteProductFromCart_twice
    (user : User.t) (productId : string) (db db' : Db) (c : Cart.t) :
  deleteProductFromCart user productId db = (inr c, db') ->
  ~ InCart productId (Cart.cartItems c)
  /\ deleteProductFromCart user productId db' =
       (inl (ApiError BAD_REQUEST (Some "Product not in cart")), db').
Proof.
  intros H. apply deleteProductFromCart_inr in H as (l & _ & _ & -> & ->). simpl.
  split; [apply not_InCart_keepOthers|].
  rewrite (deleteProductFromCart_run _ _ _ _ (itemsOf_saved _ _ _)).
  now rewrite (checkProductInCart_false _ _ (not_InCart_keepOthers _ _)).
Qed.

Lemma deleteProductFromCart_twice_witness :
  deleteProductFromCart alice "5f71c1ca04c69a5874e9fd45"
    (dbWith "alice@example.com" [mugLine 2]) =
    (inl (ApiError BAD_REQUEST (Some "Product not in cart")),
     dbWith "alice@example.com" [mugLine 2]).
Proof.
  refine (proj2 (deleteProductFromCart_twice alice "5f71c1ca04c69a5874e9fd45"
            (dbWith "alice@example.com" [penLine 1; mugLine 2])
            (dbWith "alice@example.com" [mugLine 2])
            {| Cart.email := "alice@example.com"; Cart.cartItems := [mugLine 2] |} _)).
  reflexivity.
Defined.

(** ** checkout: what a success means *)

Section CheckoutOutcomes.

Variable hasSetNonDefaultAddress : User.t -> bool.

Lemma checkout_inr (user user' : User.t) (db db' : Db) (r : unit) :
  checkout hasSetNonDefaultAddress user db = (inr r, user', db') ->
  exists cartItems,
    itemsOf user db = Some cartItems
    /\ cartItems <> []
    /\ (User.walletMoney user <? cartTotal cartItems) = false
    /\ hasSetNonDefaultAddress user = true
    /\ user' = debited user (cartTotal cartItems)
    /\ db' = checkedOut user (cartTotal cartItems) db.
Proof.
  rewrite checkout_run.
  destruct (itemsOf user db) as [[|item rest]|]; try discriminate.
  destruct (User.walletMoney user <? cartTotal (item :: rest)) eqn:Hb; [discriminate|].
  destruct (hasSetNonDefaultAddress user) eqn:Ha; [|discriminate].
  intros [= _ <- <-]. exists (item :: rest). repeat split; try discriminate.
  exact Hb.
Qed.

(** X10.  [checkout] returns normally only when the user's cart has a
    line item, the wallet is not below the total that [checkout]
    computes (the binary64 left-to-right sum of cost times quantity)
    and the address is set; the wallet it leaves is the binary64
    difference of the previous wallet and that total. *)
Theorem checkout_success_only (user user' : User.t) (db db' : Db) :
  checkout hasSetNonDefaultAddress user db = (inr tt, user', db') ->
  exists cartItems,
    itemsOf user db = Some cartItems
    /\ cartItems <> []
    /\ (User.walletMoney user <? cartTotal cartItems) = false
    /\ hasSetNonDefaultAddress user = true
    /\ User.walletMoney user' = User.walletMoney user - cartTotal cartItems.
Proof.
  intros H. apply checkout_inr in H as (l & E & Hne & Hbal & Ha & -> & _).
  exists l. repeat split; assumption.
Qed.

(** X11.  A second [checkout] right after a successful one, for the
    same user object, fails with the 400 error "No products in cart"
    and changes neither the wallet nor the store: a cart is never paid
    twice. *)
Theorem checkout_twice (user user' : User.t) (db db' : Db) :
  checkout hasSetNonDefaultAddress user db = (inr tt, user', db') ->
  checkout hasSetNonDefaultAddress user' db' =
    (inl (ApiError BAD_REQUEST (Some "No products in cart")), user', db').
Proof.
  intros H. apply checkout_inr in H as (l & _ & _ & _ & _ & -> & ->).
  rewrite checkout_run.
  assert (E : itemsOf (debited user (cartTotal l)) (checkedOut user (cartTotal l) db) =
              Some []).
  { unfold itemsOf, checkedOut. simpl. apply lookup_insert_eq. }
  now rewrite E.
Qed.

(** Comparison with NaN is false and subtraction of NaN is NaN. *)
Lemma ltb_nan_r (x : float) : (x <? nan) = false.
Proof.
  rewrite ltb_spec. unfold SFltb. change (Prim2SF nan) with S754_nan.
  now destruct (Prim2SF x).
Qed.

Lemma sub_nan_r (x : float) : x - nan = nan.
Proof.
  rewrite <- (SF2Prim_Prim2SF (x - nan)), sub_spec.
  change (Prim2SF nan) with S754_nan. now destruct (Prim2SF x).
Qed.

(** X16.  A cart whose computed total is NaN passes the balance test
    whatever the wallet holds: with an address set, [checkout] succeeds,
    empties the cart and leaves NaN as the user's wallet money, in the
    user object and in the stored record. *)
Theorem checkout_nan_total (user : User.t) (db : Db) (cartItems : list CartItem) :
  itemsOf user db = Some cartItems ->
  cartItems <> [] ->
  cartTotal cartItems = nan ->
  hasSetNonDefaultAddress user = true ->
  exists user',
    checkout hasSetNonDefaultAddress user db = (inr tt, user', checkedOut user nan db)
    /\ User.walletMoney user' = nan
    /\ itemsOf user (checkedOut user nan db) = Some []
    /\ users (checkedOut user nan db) !! User.email user = Some user'.
Proof.
  intros E Hne Hnan Ha. exists (debited user nan). repeat split.
  - rewrite checkout_run, E. destruct cartItems as [|item rest]; [contradiction|].
    now rewrite Hnan, ltb_nan_r, Ha.
  - simpl. apply sub_nan_r.
  - unfold itemsOf, checkedOut. simpl. apply lookup_insert_eq.
  - unfold checkedOut. simpl. apply lookup_insert_eq.
Qed.

End CheckoutOutcomes.

Lemma checkout_success_only_witness :
  exists cartItems,
    itemsOf alice (dbWith "alice@example.com" [penLine 2]) = Some cartItems
    /\ (500 <? cartTotal cartItems) = false.
Proof.
  destruct (checkout_success_only addressIsSet alice
              {| User.email := "alice@example.com"; User.walletMoney := 300;
                 User.address := "12 Hill Road" |}
              (dbWith "alice@example.com" [penLine 2])
              (checkedOut alice 200 (dbWith "alice@example.com" [penLine 2])))
    as (l & E & _ & Hbal & _).
  - reflexivity.
  - exists l. split; assumption.
Defined.

Lemma checkout_nan_total_witness :
  exists user',
    checkout addressIsSet alice (dbWith "alice@example.com" [giftLine]) =
      (inr tt, user', checkedOut alice nan (dbWith "alice@example.com" [giftLine]))
    /\ User.walletMoney user' = nan.
Proof.
  destruct (checkout_nan_total addressIsSet alice
              (dbWith "alice@example.com" [giftLine]) [giftLine])
    as (user' & Hrun & Hw & _).
  - reflexivity.
  - discriminate.
  - reflexivity.
  - reflexivity.
  - exists user'. split; assumption.
Defined.

Lemma checkout_twice_witness :
  checkout addressIsSet
    {| User.email := "alice@example.com"; User.walletMoney := 300;
       User.address := "12 Hill Road" |}
    (checkedOut alice 200 (dbWith "alice@example.com" [penLine 2])) =
    (inl (ApiError BAD_REQUEST (Some "No products in cart")),
     {| User.email := "alice@example.com"; User.walletMoney := 300;
        User.address := "12 Hill Road" |},
     checkedOut alice 200 (dbWith "alice@example.com" [penLine 2])).
Proof.
  apply (checkout_twice addressIsSet alice _ (dbWith "alice@example.com" [penLine 2])).
  reflexivity.
Defined.

(** ** What the service leaves alone *)

(** Each of add, update and delete either leaves the store as it was or
    saves one list of line items under the user's email. *)
Lemma addProductToCart_store
    (user : User.t) (productId : string) (quantity : float) (db : Db) :
  snd (addProductToCart user productId quantity db) = db
  \/ exists l, snd (addProductToCart user productId quantity db) =
               set_carts (insert (User.email user) l) db.
Proof.
  destruct (itemsOf user db) as [cartItems|] eqn:E.
  - rewrite (addProductToCart_existing_cart _ _ _ _ _ E).
    destruct (checkProductInCart cartItems productId); [now left|].
    destruct (findProduct (products db) productId); [|now left].
    right. eexists. reflexivity.
  - rewrite (addProductToCart_no_cart _ _ _ _ E).
    destruct (cartCreateOk db); [|now left].
    destruct (findProduct (products db) productId); right; eexists; reflexivity.
Qed.

Lemma updateProductInCart_store
    (user : User.t) (productId : string) (quantity : float) (db : Db) :
  snd (updateProductInCart user productId quantity db) = db
  \/ exists l, snd (updateProductInCart user productId quantity db) =
               set_carts (insert (User.email user) l) db.
Proof.
  destruct (updateProductInCart user productId quantity db) as [[e|c] db'] eqn:H.
  - left. simpl. now apply updateProductInCart_inl in H.
  - right. apply updateProductInCart_inr in H as (l & _ & _ & _ & _ & ->).
    eexists. reflexivity.
Qed.

Lemma deleteProductFromCart_store (user : User.t) (productId : string) (db : Db) :
  snd (deleteProductFromCart user productId db) = db
  \/ exists l, snd (deleteProductFromCart user productId db) =
               set_carts (insert (User.email user) l) db.
Proof.
  destruct (itemsOf user db) as [cartItems|] eqn:E.
  - rewrite (deleteProductFromCart_run _ _ _ _ E).
    destruct (checkProductInCart cartItems productId); [|now left].
    right. eexists. reflexivity.
  - rewrite (deleteProductFromCart_no_cart _ _ _ E). now left.
Qed.

Lemma checkout_store
    (hasSetNonDefaultAddress : User.t -> bool) (user : User.t) (db : Db) :
  snd (checkout hasSetNonDefaultAddress user db) = db
  \/ exists total, snd (checkout hasSetNonDefaultAddress user db) =
                   checkedOut user total db.
Proof.
  rewrite checkout_run.
  destruct (itemsOf user db) as [[|item rest]|]; try now left.
  destruct (User.walletMoney user <? cartTotal (item :: rest)); [now left|].
  destruct (hasSetNonDefaultAddress user); [|now left].
  right. eexists. reflexivity.
Qed.

(** X13.  No operation touches the cart of another user: the line
    items stored under any email other than the caller's are the same
    after add, update, delete and checkout, whether the call fails or
    not. *)
Theorem other_carts_untouched
    (hasSetNonDefaultAddress : User.t -> bool)
    (user : User.t) (productId : string) (quantity : float) (db : Db) (owner : string) :
  owner <> User.email user ->
  carts (snd (addProductToCart user productId quantity db)) !! owner = carts db !! owner
  /\ carts (snd (updateProductInCart user productId quantity db)) !! owner =
       carts db !! owner
  /\ carts (snd (deleteProductFromCart user productId db)) !! owner = carts db !! owner
  /\ carts (snd (checkout hasSetNonDefaultAddress user db)) !! owner = carts db !! owner.
Proof.
  intros Hne. repeat split.
  - destruct (addProductToCart_store user productId quantity db) as [->|[l ->]];
      [reflexivity|]. simpl. now apply lookup_insert_ne.
  - destruct (updateProductInCart_store user productId quantity db) as [->|[l ->]];
      [reflexivity|]. simpl. now apply lookup_insert_ne.
  - destruct (deleteProductFromCart_store user productId db) as [->|[l ->]];
      [reflexivity|]. simpl. now apply lookup_insert_ne.
  - destruct (checkout_store hasSetNonDefaultAddress user db) as [->|[t ->]];
      [reflexivity|]. simpl. now apply lookup_insert_ne.
Qed.

Lemma other_carts_untouched_witness :
  carts (snd (addProductToCart alice "5f71c1ca04c69a5874e9fd46" 1
                (dbWith "bob@example.com" [penLine 1]))) !! "bob@example.com" =
  Some [penLine 1].
Proof.
  refine (proj1 (other_carts_untouched addressIsSet alice "5f71c1ca04c69a5874e9fd46" 1
            (dbWith "bob@example.com" [penLine 1]) "bob@example.com" _)).
  discriminate.
Defined.

(** X14.  The service never writes to the catalog, and add, update and
    delete never write to the user collection; [checkout] leaves the
    catalog and the record of every other user as they were. *)
Theorem catalog_and_users_untouched
    (hasSetNonDefaultAddress : User.t -> bool)
    (user : User.t) (productId : string) (quantity : float) (db : Db) :
  (products (snd (getCartByUser user db)) = products db
   /\ products (snd (addProductToCart user productId quantity db)) = products db
   /\ products (snd (updateProductInCart user productId quantity db)) = products db
   /\ products (snd (deleteProductFromCart user productId db)) = products db
   /\ products (snd (checkout hasSetNonDefaultAddress user db)) = products db)
  /\ (users (snd (getCartByUser user db)) = users db
      /\ users (snd (addProductToCart user productId quantity db)) = users db
      /\ users (snd (updateProductInCart user productId quantity db)) = users db
      /\ users (snd (deleteProductFromCart user productId db)) = users db)
  /\ (forall other : string, other <> User.email user ->
        users (snd (checkout hasSetNonDefaultAddress user db)) !! other =
        users db !! other).
Proof.
  split; [|split].
  - repeat split.
    + now rewrite getCartByUser_store.
    + now destruct (addProductToCart_store user productId quantity db) as [->|[l ->]].
    + now destruct (updateProductInCart_store user productId quantity db) as [->|[l ->]].
    + now destruct (deleteProductFromCart_store user productId db) as [->|[l ->]].
    + now destruct (checkout_store hasSetNonDefaultAddress user db) as [->|[t ->]].
  - repeat split.
    + now rewrite getCartByUser_store.
    + now destruct (addProductToCart_store user productId quantity db) as [->|[l ->]].
    + now destruct (updateProductInCart_store user productId quantity db) as [->|[l ->]].
    + now destruct (deleteProductFromCart_store user productId db) as [->|[l ->]].
  - intros other Hne.
    destruct (checkout_store hasSetNonDefaultAddress user db) as [->|[t ->]];
      [reflexivity|]. simpl. now apply lookup_insert_ne.
Qed.

(** X15.  No operation removes a cart document: an email that has a
    cart before add, update, delete or checkout still has one after it
    (checkout empties the line items, it does not delete the cart). *)
Theorem cart_never_removed
    (hasSetNonDefaultAddress : User.t -> bool)
    (user : User.t) (productId : string) (quantity : float) (db : Db) (owner : string) :
  is_Some (carts db !! owner) ->
  is_Some (carts (snd (addProductToCart user productId quantity db)) !! owner)
  /\ is_Some (carts (snd (updateProductInCart user productId quantity db)) !! owner)
  /\ is_Some (carts (snd (deleteProductFromCart user productId db)) !! owner)
  /\ is_Some (carts (snd (checkout hasSetNonDefaultAddress user db)) !! owner).
Proof.
  intros Hsome.
  assert (Hins : forall l, is_Some (<[User.email user := l]> (carts db) !! owner)).
  { intros l. rewrite lookup_insert. destruct (decide (User.email user = owner)); eauto. }
  repeat split.
  - destruct (addProductToCart_store user productId quantity db) as [->|[l ->]];
      [assumption | apply Hins].
  - destruct (updateProductInCart_store user productId quantity db) as [->|[l ->]];
      [assumption | apply Hins].
  - destruct (deleteProductFromCart_store user productId db) as [->|[l ->]];
      [assumption | apply Hins].
  - destruct (checkout_store hasSetNonDefaultAddress user db) as [->|[t ->]];
      [assumption | apply Hins].
Qed.

Lemma cart_never_removed_witness :
  is_Some
    (carts (snd (checkout addressIsSet alice (dbWith "alice@example.com" [penLine 2])))
       !! "alice@example.com").
Proof.
  refine (proj2 (proj2 (proj2 (cart_never_removed addressIsSet alice
            "5f71c1ca04c69a5874e9fd45" 1 (dbWith "alice@example.com" [penLine 2])
            "alice@example.com" _)))).
  exists [penLine 2]. reflexivity.
Defined.

Lemma catalog_and_users_untouched_witness :
  users (snd (checkout addressIsSet alice (dbWith "alice@example.com" [penLine 2])))
    !! "bob@example.com" = None.
Proof.
  refine (proj2 (proj2 (catalog_and_users_untouched addressIsSet alice
            "5f71c1ca04c69a5874e9fd45" 1 (dbWith "alice@example.com" [penLine 2])))
            "bob@example.com" _).
  discriminate.
Defined.
